(* ===== verification/_CoqProject ===== *)
-Q . S2P
Prelude.v
PyStr.v
Tables.v
State.v
Normalizer.v
Labels.v
Variables.v
Parser.v
Encoder.v
Pipeline.v
Spec.v
Refinement.v
Process.v
