(* ===== verification/Prelude.v ===== *)
(** * A verified model of the Hack assembler [src/hack-assemble.py]

    The program is one Python class [Assembler] whose constructor runs a
    five-stage pipeline over the lines read from standard input
    (src/hack-assemble.py, lines 43-55):

      [remove_unnecessary] -> [find_labels] -> [find_variables]
        -> [build_intermediary] -> [assemble]

    then [get_machine_code] (lines 220-221) joins the words with
    newlines and the module-level code (lines 223-224) prints them.
    The stages communicate only through five fields of the object
    ([assembly_code], [labels], [variables], [intermediary_code],
    [machine_code]); each stage reads the whole output of the previous
    one, and an exception in any stage ends the run before any output.

    ** Files (dependency order, as in _CoqProject)

    - [Prelude] (this file): the exceptions the program can raise
      ([KeyError], [ValueError], [IndexError]) as [py_exc], the result
      type [res] with its bind notation [x <- m ;; k] in [hack_scope],
      [res_map] (a [for] loop appending to a list, aborting on the first
      exception) with its lemmas, the [hack] hint databases and tactics.
    - [PyStr]: the [str] builtins the code calls ([split], [join],
      [find], [startswith], slicing with negative and omitted bounds,
      [isdigit], [int], [format(i, "#0Nb")]), written from CPython's
      behaviour on characters with code points 0-255, and their lemmas.
    - [Tables]: the class attributes [comp_table], [jump_table],
      [dest_table] and [predefined_symbols] (lines 8-37) as association
      lists in source order turned into [gmap]s, the dict lookup
      [table_get] that raises [KeyError]; the type class [FieldTable]
      states what the encoder needs of a table (distinct keys, codes of
      the field's width made of bits, decodable), and its three instances
      are checked by computation.
    - [State]: the record [Assembler] of the five fields, the
      constructor's assignments [Assembler_fields] (lines 44-49), the
      field setters, and the intermediate instructions [instr] (the two
      dict shapes of lines 136-179).
    - [Normalizer] (Module [Normalizer]): [remove_unnecessary], lines
      61-73.
    - [Labels] (Module [Labels]): [find_labels], lines 83-99: the
      enumerate loop with its instruction counter, then the deletion of
      the recorded indexes in [sorted(..., reverse=True)] order, each
      [del] raising [IndexError] out of range.
    - [Variables] (Module [Variables]): [find_variables], lines 105-119.
    - [Parser] (Module [Parser]): [build_intermediary], lines 125-182:
      address dereference (variables first, then labels, then [int]),
      and the four [find]-based cases of a compute line.
    - [Encoder] (Module [Encoder]): [assemble] and [get_binary_string],
      lines 188-214.
    - [Pipeline] (Module [Pipeline]): [__init__] as [Assembler_init],
      [get_machine_code], and [main] with [sys.stdin.readlines()]
      (universal newlines) and [print].
    - [Spec] (Module [Spec]): an abstract specification of the whole
      assembler with no tables, indexes or deletions: labels as the map
      of their declarations, the meaning of an operand ([Spec.resolve]),
      compute lines split at their separators, and [Spec.run], which
      parses the whole program and then encodes it.
    - [Refinement] (Module [Refinement]): the proof that
      [Assembler_init] implements [Spec.run], and its consequences.
    - [Process] (Module [Process]): lines 223-224 as a process: what is
      printed on standard output, the exception that escapes (reported
      on standard error) and the exit status.

    Each stage is a function on [Assembler] (returning [res Assembler]
    when it can raise), its loop a [Fixpoint] over the list with the
    loop's local variables as arguments, composed in [Assembler_init]
    exactly as [__init__] calls them.  Everything is executable: the
    examples evaluate [main] on concrete programs with [vm_compute].

    ** Theorems

    - Process: the output is all or nothing: every word and status 0,
      or nothing printed, the exception reported and status 1.
    - Refinement: for every input, the run's machine code or exception
      is [Spec.run]'s ([Assembler_init_refines]), so labels, variables
      and compute lines mean what the specification says and the whole
      program is parsed before any of it is encoded; every address of a
      run is a natural number; the only exceptions are a [ValueError]
      on an [isdigit] operand that [int] rejects (a superscript digit,
      or more than 4300 digits) and a [KeyError] on the first unknown
      mnemonic of a compute line.
    - Normalizer: output lines are non-empty, without whitespace or
      ["//"]; normalizing is idempotent; whitespace anywhere is ignored;
      a comment is cut at its first ["//"].
    - Labels: [find_labels] never raises and removes exactly the label
      lines; a label is bound to the number of instruction lines before
      its last declaration; label addresses are bounded by the program.
    - Variables: the pass refines a specification (the first-occurrence
      list of unknown symbols numbered from 16, joined to the old table);
      no binding is overwritten; new addresses are distinct and not
      labels; afterwards every operand is resolvable.
    - Parser: one instruction per line (no line is dropped); printing a
      compute instruction and parsing it is the identity; the [find] and
      slice code of a compute line is equivalent to splitting at the
      first separators; the parser never raises on a resolvable program.
    - Encoder: round trips of A and C words against bit-level decoders,
      the exact [KeyError] of an unknown mnemonic, success iff all
      mnemonics are known, 16-bit words below [2^15].
    - Pipeline: [readlines] cuts the input into lines that concatenate
      back to it; one word per instruction; label, predefined and
      variable operands are encoded as their addresses.

    Examples (not properties) evaluate [main] on the spec's programs and
    on the inputs behind the findings: a label shadowed by a predefined
    name, an out-of-range literal, a literal of 4301 digits, a
    superscript digit, an unclosed
    label, a malformed line, a spaced comment, and a parse error raised
    before an encoding error of an earlier line.

    ** Bounds and modelling choices

    Integers are [Z] (Python ints are unbounded); the 15-bit bound of an
    address is a hypothesis of the theorems that need it, and
    [Encoder.assemble_A_overflow] shows what happens without it.  [int]
    on a string follows CPython 3.11 and later with the default
    [sys.get_int_max_str_digits()] of 4300: a longer decimal string
    raises [ValueError] (older CPython versions have no limit).  Standard
    input is read as CPython does on a POSIX system: lines end at
    ["\n"] and no ["\r"] is translated.  No definition needs fuel: every
    loop is structural on the list of lines, and [del_indexes] on the
    list of indexes.  No loop body changes the list it iterates over
    ([find_labels] deletes only after its loop, iterating over another
    list), so Python's list iterator visits each item once and the
    structural recursion is its faithful reading; termination holds by
    construction and is not stated as a property.  Strings are Stdlib
    [string]s whose characters stand for the code points 0-255
    (Latin-1): the character classes of [str.split] and [str.isdigit]
    are CPython's on that range.

    ** Not modelled

    Characters above code point 255 (the Unicode classes of [split] and
    [isdigit] there) and the byte decoding of standard input: [Process]
    starts from the decoded text and ends with the text printed, the
    exception and the exit status; the content of the traceback is not
    modelled.  Windows, where standard input translates ["\r\n"] and
    standard output writes ["\r\n"], is not modelled.  There is no
    liveness property: the script is a batch program with no
    interaction after reading its input.  The model follows Python 3
    [str]; under Python 2 byte strings the classes of [split] and
    [isdigit] differ above code point 127. *)

From Stdlib Require Import ZArith Lia.
From stdpp Require Import base list strings sets.

(** ** Python exceptions and results *)

(** The exceptions the modelled code can raise.  A dictionary lookup
    [d[k]] with a missing key raises [KeyError k] (the keys of the
    encoding tables are [None] or a string, hence [option string]);
    [int(s)] on a string that is not a decimal literal raises
    [ValueError s]; [del l[i]] out of range raises [IndexError i]. *)
Inductive py_exc : Type :=
  | KeyError (key : option string)
  | ValueError (literal : string)
  | IndexError (index : nat).

(** A computation that returns a value or raises. *)
Inductive res (A : Type) : Type :=
  | Ok (a : A)
  | Raise (e : py_exc).
Arguments Ok {A} a.
Arguments Raise {A} e.

Definition res_bind {A B : Type} (m : res A) (k : A -> res B) : res B :=
  match m with
  | Ok a => k a
  | Raise e => Raise e
  end.

Declare Scope hack_scope.
Delimit Scope hack_scope with hack.
Notation "x <- m ;; k" := (res_bind m (fun x => k))
  (at level 100, m at next level, right associativity) : hack_scope.
Open Scope hack_scope.

(** [for x in l: out.append(f(x))], where [f] may raise: the first
    exception aborts the loop. *)
Fixpoint res_map {A B : Type} (f : A -> res B) (l : list A) : res (list B) :=
  match l with
  | [] => Ok []
  | x :: l' => y <- f x ;; ys <- res_map f l' ;; Ok (y :: ys)
  end.

Create HintDb hack.
Create Rewrite HintDb hack_rw.

(** ** Generic lemmas on results *)

Lemma res_bind_Ok {A B : Type} (m : res A) (k : A -> res B) (b : B) :
  res_bind m k = Ok b <-> exists a, m = Ok a /\ k a = Ok b.
Proof.
  destruct m as [a|e]; simpl; split.
  - eauto.
  - by intros (a' & [= ->] & ?).
  - discriminate.
  - by intros (a' & ? & _).
Qed.

Lemma res_map_Ok {A B : Type} (f : A -> res B) l l' :
  res_map f l = Ok l' <-> Forall2 (fun x y => f x = Ok y) l l'.
Proof.
  revert l'; induction l as [|x l IH]; intros l'; simpl.
  - split; [intros [= <-]; constructor | intros H; inversion H; done].
  - rewrite res_bind_Ok. setoid_rewrite res_bind_Ok. split.
    + intros (y & Hy & ys & Hys & [= <-]). constructor; [done | by apply IH].
    + intros H; inversion H as [|? y ? ys Hy Hys]; subst.
      exists y; split; [done|]. exists ys; split; [by apply IH|done].
Qed.

Lemma res_map_length {A B : Type} (f : A -> res B) l l' :
  res_map f l = Ok l' -> length l' = length l.
Proof. rewrite res_map_Ok. intros H. symmetry. by eapply Forall2_length. Qed.

Lemma res_map_app {A B : Type} (f : A -> res B) l1 l2 :
  res_map f (l1 ++ l2) =
  (ys1 <- res_map f l1 ;; ys2 <- res_map f l2 ;; Ok (ys1 ++ ys2)).
Proof.
  induction l1 as [|x l1 IH]; simpl.
  - by destruct (res_map f l2).
  - rewrite IH. destruct (f x); simpl; [|done].
    destruct (res_map f l1); simpl; [|done].
    by destruct (res_map f l2).
Qed.

(** The loop succeeds exactly when [f] succeeds on every element. *)
Lemma res_map_total {A B : Type} (f : A -> res B) l :
  (forall x, x ∈ l -> exists y, f x = Ok y) -> exists l', res_map f l = Ok l'.
Proof.
  induction l as [|x l IH]; intros Hf; simpl; [by eexists|].
  destruct (Hf x) as [y ->]; [set_solver|]. simpl.
  destruct IH as [l' ->]; [intros; apply Hf; set_solver|]. by eexists.
Qed.

Lemma res_map_elem_l {A B : Type} (f : A -> res B) l l' x :
  res_map f l = Ok l' -> x ∈ l -> exists y, f x = Ok y /\ y ∈ l'.
Proof.
  rewrite res_map_Ok. intros H Hx. apply list_elem_of_lookup in Hx as [i Hi].
  destruct (Forall2_lookup_l _ _ _ _ _ H Hi) as (y & Hy & Hf).
  exists y. split; [done|]. by eapply list_elem_of_lookup_2.
Qed.

Lemma res_map_elem_r {A B : Type} (f : A -> res B) l l' y :
  res_map f l = Ok l' -> y ∈ l' -> exists x, x ∈ l /\ f x = Ok y.
Proof.
  rewrite res_map_Ok. intros H Hy. apply list_elem_of_lookup in Hy as [i Hi].
  destruct (Forall2_lookup_r _ _ _ _ _ H Hi) as (x & Hx & Hf).
  exists x. split; [by eapply list_elem_of_lookup_2|done].
Qed.

Lemma res_map_Raise {A B : Type} (f : A -> res B) l e :
  res_map f l = Raise e -> exists x, x ∈ l /\ f x = Raise e.
Proof.
  induction l as [|x l IH]; simpl; [discriminate|].
  destruct (f x) eqn:Hx; simpl.
  - destruct (res_map f l) eqn:Hl; simpl; [discriminate|].
    intros [= ->]. destruct IH as (y & ? & ?); [done|]. exists y. split; [set_solver|done].
  - intros [= ->]. exists x. split; [set_solver|done].
Qed.

(** Destructs the binds of a hypothesis [_ = Ok _]. *)
Ltac res_inv :=
  repeat match goal with
  | H : res_bind _ _ = Ok _ |- _ =>
      apply res_bind_Ok in H; destruct H as (? & ? & H)
  | H : Ok _ = Ok _ |- _ => injection H as H
  end.

(** Proves a decidable proposition on closed data by evaluation. *)
Ltac decide_vm := apply (bool_decide_unpack _); vm_compute; reflexivity.

#[export] Hint Resolve res_map_length : hack.
