(* ===== verification/PyStr.v ===== *)
(** * Python [str] builtins used by the assembler

    The assembler calls [str.split()], [str.join], [str.find],
    [str.startswith], slicing [s[i:j]], [str.isdigit], [int(str)] and
    [format(i, "#0Nb")].  They are library code, not code of the
    repository, so they are written here from CPython 3's documented
    behaviour.  A Python string is a [string] whose characters are read
    as the code points 0..255 (Latin-1): on that range [str.isspace]
    holds for 9..13, 28..32, 133 and 160, and [str.isdigit] for 48..57
    and the superscripts 178, 179, 185.

    [split_first] (the text before and after the first occurrence of a
    character) is not a builtin the code calls: it is the reference the
    parser's [find]/slice code is proved against. *)

From Stdlib Require Import ZArith Lia Ascii.
From stdpp Require Import base list strings.
From S2P Require Import Prelude.

(** ** Characters *)

(** [c.isspace()] on code points 0..255. *)
Definition is_space (c : ascii) : bool :=
  let n := nat_of_ascii c in
  ((9 <=? n) && (n <=? 13)) || ((28 <=? n) && (n <=? 32))
  || (n =? 133) || (n =? 160).

(** [c.isdigit()] on code points 0..255: the ASCII digits and the
    superscripts two, three and one. *)
Definition is_digit_char (c : ascii) : bool :=
  let n := nat_of_ascii c in
  ((48 <=? n) && (n <=? 57)) || (n =? 178) || (n =? 179) || (n =? 185).

(** The characters [int()] accepts as decimal digits (category Nd) on
    code points 0..255. *)
Definition is_decimal_char (c : ascii) : bool :=
  let n := nat_of_ascii c in (48 <=? n) && (n <=? 57).

(** Code points below 128. *)
Definition is_ascii (c : ascii) : bool := nat_of_ascii c <? 128.

(** ** Generic string functions *)

Fixpoint str_filter (p : ascii -> bool) (s : string) : string :=
  match s with
  | "" => ""
  | String c s' => if p c then String c (str_filter p s') else str_filter p s'
  end.

Fixpoint str_forall (p : ascii -> bool) (s : string) : bool :=
  match s with
  | "" => true
  | String c s' => p c && str_forall p s'
  end.

(** ** [str.split()] and [str.join] *)

(** The last (unfinished) word and the words after it. *)
Fixpoint split_aux (s : string) : string * list string :=
  match s with
  | "" => ("", [])
  | String c s' =>
      let '(w, ws) := split_aux s' in
      if is_space c then ("", if String.eqb w "" then ws else w :: ws)
      else (String c w, ws)
  end.

(** [s.split()] with no separator: the maximal runs of non-space
    characters, in order. *)
Definition py_split (s : string) : list string :=
  let '(w, ws) := split_aux s in if String.eqb w "" then ws else w :: ws.

(** [sep.join(l)]. *)
Fixpoint py_join (sep : string) (l : list string) : string :=
  match l with
  | [] => ""
  | [x] => x
  | x :: l' => x +:+ sep +:+ py_join sep l'
  end.

(** ** [str.find] and [str.startswith] *)

Fixpoint find_index (sub s : string) : option nat :=
  if String.prefix sub s then Some 0
  else match s with
       | "" => None
       | String _ s' => S <$> find_index sub s'
       end.

(** [s.find(sub)]: the index of the first occurrence, or [-1]. *)
Definition py_find (s sub : string) : Z :=
  match find_index sub s with
  | Some n => Z.of_nat n
  | None => (-1)%Z
  end.

(** [s.startswith(p)]. *)
Definition py_startswith (s p : string) : bool := String.prefix p s.

(** ** Slicing *)

(** An index of a slice bound, made non-negative and clipped as Python
    does: a negative index counts from the end. *)
Definition py_norm (len : nat) (i : Z) : nat :=
  Z.to_nat (if (i <? 0)%Z then Z.max 0 (i + Z.of_nat len)
            else Z.min i (Z.of_nat len)).

(** [s[i:j]]; [j = None] is the omitted upper bound [s[i:]]. *)
Definition py_slice (s : string) (i : Z) (j : option Z) : string :=
  let n := String.length s in
  let a := py_norm n i in
  let b := match j with Some j => py_norm n j | None => n end in
  String.substring a (b - a) s.

(** ** [str.isdigit] and [int] *)

(** [s.isdigit()]: non-empty and every character a digit. *)
Definition py_isdigit (s : string) : bool :=
  negb (String.eqb s "") && str_forall is_digit_char s.

Fixpoint dec_acc (acc : Z) (s : string) : Z :=
  match s with
  | "" => acc
  | String c s' => dec_acc (10 * acc + (Z.of_nat (nat_of_ascii c) - 48)) s'
  end.

(** [int(s)] for the strings that reach it in this program: the
    [isdigit] operands (every other unknown operand became a variable)
    and the values of [predefined_symbols].  A non-empty run of decimal
    digits is parsed, leading zeros allowed, when it has at most
    [int_max_str_digits] digits; a longer one raises [ValueError], as
    CPython 3.11 and later (and the security releases that backported
    the limit) do with the default of [sys.get_int_max_str_digits()];
    anything else raises [ValueError] too.  CPython also accepts
    surrounding whitespace, a sign and single underscores between
    digits; an [isdigit] string holds none of them, and for such strings
    the number of digits the limit counts is the length. *)
Definition is_decimal (s : string) : bool :=
  negb (String.eqb s "") && str_forall is_decimal_char s.

(** The default digit limit of CPython's [int] on a decimal string. *)
Definition int_max_str_digits : nat := 4300.

(** The strings [int] converts. *)
Definition py_int_accepts (s : string) : bool :=
  is_decimal s && (String.length s <=? int_max_str_digits).

Definition py_int_str (s : string) : res Z :=
  if py_int_accepts s then Ok (dec_acc 0 s) else Raise (ValueError s).

(** ** [format(i, "#0Nb")] *)

(** The binary digits of a positive number, most significant first. *)
Fixpoint pos_bin (p : positive) : string :=
  match p with
  | xH => "1"
  | xO p' => pos_bin p' +:+ "0"
  | xI p' => pos_bin p' +:+ "1"
  end.

(** [bin(abs(i))] without its prefix. *)
Definition bin_digits (i : Z) : string :=
  match i with
  | Z0 => "0"
  | Zpos p | Zneg p => pos_bin p
  end.

Fixpoint zeros (n : nat) : string :=
  match n with
  | O => ""
  | S n' => String "0" (zeros n')
  end.

(** [format(i, "#0" + str(w) + "b")]: sign, the prefix [0b], then the
    digits zero-padded so that the whole string has at least [w]
    characters (the [0] flag pads after the sign and the prefix). *)
Definition format_bin (i : Z) (w : nat) : string :=
  let prefix := (if (i <? 0)%Z then "-" else "") +:+ "0b" in
  let digits := bin_digits i in
  prefix +:+ zeros (w - String.length prefix - String.length digits) +:+ digits.

Definition remove_spaces (s : string) : string := str_filter (fun c => negb (is_space c)) s.

Definition str_concat (l : list string) : string := foldr String.append "" l.

(** [s] holds no character [ch]. *)
Definition lacks (ch : ascii) (s : string) : bool :=
  str_forall (fun x => negb (Ascii.eqb x ch)) s.

(** The text before the first [ch] of [s] and the text after it: the
    reference reading of "split at the first separator", used to state
    what the [find]/slice code of the parser computes. *)
Fixpoint split_first (ch : ascii) (s : string) : option (string * string) :=
  match s with
  | "" => None
  | String c s' =>
      if ascii_dec c ch then Some ("", s')
      else match split_first ch s' with
           | Some (u, v) => Some (String c u, v)
           | None => None
           end
  end.

Example format_bin_5 : format_bin 5 10 = "0b00000101".
Proof. reflexivity. Qed.
Example format_bin_neg5 : format_bin (-5) 10 = "-0b0000101".
Proof. reflexivity. Qed.
Example format_bin_wide : format_bin 1000 4 = "0b1111101000".
Proof. reflexivity. Qed.
Example py_split_ex : py_split " D = M  +1 " = ["D"; "="; "M"; "+1"].
Proof. reflexivity. Qed.
Example py_slice_ex : py_slice "(LOOP)" 1 (Some (-1)%Z) = "LOOP".
Proof. reflexivity. Qed.
Example py_find_ex : py_find "D=M;JMP" ";" = 3%Z /\ py_find "D=M" ";" = (-1)%Z.
Proof. split; reflexivity. Qed.

(** ** Lemmas on strings *)

(** stdpp makes [String.append] opaque to [simpl]; these are its
    defining equations and the list-like laws, as a rewrite database. *)
Lemma str_app_nil_l s : "" +:+ s = s.
Proof. reflexivity. Qed.
Lemma str_app_cons c s1 s2 : String c s1 +:+ s2 = String c (s1 +:+ s2).
Proof. reflexivity. Qed.
Lemma str_app_nil_r s : s +:+ "" = s.
Proof. induction s as [|c s IH]; [done|]. by rewrite str_app_cons, IH. Qed.
Lemma str_app_assoc s1 s2 s3 : s1 +:+ (s2 +:+ s3) = (s1 +:+ s2) +:+ s3.
Proof. induction s1 as [|c s1 IH]; [done|]. by rewrite !str_app_cons, IH. Qed.
Lemma str_app_length s1 s2 :
  String.length (s1 +:+ s2) = String.length s1 + String.length s2.
Proof. induction s1 as [|c s1 IH]; [done|]. rewrite str_app_cons. simpl. by rewrite IH. Qed.

#[export] Hint Rewrite str_app_nil_l str_app_cons str_app_nil_r str_app_length : hack_rw.

Lemma str_filter_app p s1 s2 :
  str_filter p (s1 +:+ s2) = str_filter p s1 +:+ str_filter p s2.
Proof.
  induction s1 as [|c s1 IH]; [done|]. rewrite str_app_cons. simpl.
  rewrite IH. by destruct (p c).
Qed.

Lemma str_filter_forall p s : str_forall p s = true -> str_filter p s = s.
Proof.
  induction s as [|c s IH]; [done|]. simpl. intros [-> H]%andb_prop.
  by rewrite IH.
Qed.

Lemma str_forall_filter p s : str_forall p (str_filter p s) = true.
Proof.
  induction s as [|c s IH]; [done|]. simpl. destruct (p c) eqn:E; [|done].
  simpl. by rewrite E, IH.
Qed.

Lemma str_forall_app p s1 s2 :
  str_forall p (s1 +:+ s2) = str_forall p s1 && str_forall p s2.
Proof.
  induction s1 as [|c s1 IH]; [done|]. rewrite str_app_cons. simpl.
  by rewrite IH, andb_assoc.
Qed.

Lemma str_forall_substring p s n m :
  str_forall p s = true -> str_forall p (String.substring n m s) = true.
Proof.
  revert n m. induction s as [|c s IH]; intros n m H; destruct n, m; simpl in *; try done.
  - apply andb_prop in H as [-> H]. simpl. by apply (IH 0).
  - apply andb_prop in H as [_ H]. by apply IH.
  - apply andb_prop in H as [_ H]. by apply IH.
Qed.

(** *** Removing the whitespace: ["".join(s.split())] *)

Lemma py_join_empty l : py_join "" l = str_concat l.
Proof.
  induction l as [|x l IH]; [done|]. destruct l as [|y l].
  - simpl. by rewrite str_app_nil_r.
  - change (x +:+ "" +:+ py_join "" (y :: l) = x +:+ str_concat (y :: l)).
    by rewrite str_app_nil_l, IH.
Qed.

Lemma split_aux_concat s :
  (split_aux s).1 +:+ str_concat (split_aux s).2 = remove_spaces s.
Proof.
  induction s as [|c s IH]; [done|]. unfold remove_spaces in *. simpl.
  destruct (split_aux s) as [w ws]. simpl in *.
  destruct (is_space c); simpl.
  - rewrite <- IH. destruct (String.eqb_spec w ""); subst; done.
  - by rewrite str_app_cons, IH.
Qed.

(** Splitting on whitespace and joining with [""] removes exactly the
    whitespace characters. *)
Lemma join_split s : py_join "" (py_split s) = remove_spaces s.
Proof.
  rewrite py_join_empty, <- split_aux_concat. unfold py_split.
  destruct (split_aux s) as [w ws]. simpl.
  by destruct (String.eqb_spec w ""); subst.
Qed.

Lemma remove_spaces_app s1 s2 :
  remove_spaces (s1 +:+ s2) = remove_spaces s1 +:+ remove_spaces s2.
Proof. apply str_filter_app. Qed.

Lemma remove_spaces_nospace s :
  str_forall (fun c => negb (is_space c)) s = true -> remove_spaces s = s.
Proof. apply str_filter_forall. Qed.

(** *** [find] *)

Lemma prefix_cons a s1 b s2 :
  String.prefix (String a s1) (String b s2) =
  if ascii_dec a b then String.prefix s1 s2 else false.
Proof. reflexivity. Qed.

Lemma prefix_nil s : String.prefix "" s = true.
Proof. by destruct s. Qed.

Lemma prefix_substring sub x k :
  String.prefix sub (String.substring 0 k x) = true -> String.prefix sub x = true.
Proof.
  revert x k. induction sub as [|c sub IH]; intros x k; [by destruct x|].
  destruct x as [|d x], k as [|k]; simpl; try done.
  destruct (ascii_dec c d); [apply IH | done].
Qed.

Lemma find_index_nil sub :
  find_index sub "" = if String.prefix sub "" then Some 0 else None.
Proof. reflexivity. Qed.
Lemma find_index_cons sub c s :
  find_index sub (String c s) =
  if String.prefix sub (String c s) then Some 0 else S <$> find_index sub s.
Proof. reflexivity. Qed.

Lemma find_index_bound sub s n : find_index sub s = Some n -> n <= String.length s.
Proof.
  revert n. induction s as [|c s IH]; intros n.
  - rewrite find_index_nil. destruct (String.prefix sub ""); intros; simplify_eq/=; lia.
  - rewrite find_index_cons. destruct (String.prefix sub (String c s)); intros H.
    + simplify_eq/=. lia.
    + destruct (find_index sub s) eqn:E; simplify_eq/=. specialize (IH _ eq_refl). lia.
Qed.

(** Nothing before the first occurrence is an occurrence. *)
Lemma find_index_before sub s n :
  sub <> "" -> find_index sub s = Some n ->
  find_index sub (String.substring 0 n s) = None.
Proof.
  intros Hsub. revert n. induction s as [|c s IH]; intros n.
  - rewrite find_index_nil. by destruct sub.
  - rewrite find_index_cons. destruct (String.prefix sub (String c s)) eqn:Hp; intros H.
    + simplify_eq. by destruct sub.
    + destruct (find_index sub s) as [m|] eqn:E; [|discriminate].
      simpl in H. injection H as <-.
      change (String.substring 0 (S m) (String c s)) with (String c (String.substring 0 m s)).
      rewrite find_index_cons, IH by done.
      destruct (String.prefix sub (String c (String.substring 0 m s))) eqn:Hq; [|done].
      apply (prefix_substring sub (String c s) (S m)) in Hq. congruence.
Qed.

Lemma py_slice_prefix s n :
  n <= String.length s -> py_slice s 0 (Some (Z.of_nat n)) = String.substring 0 n s.
Proof.
  intros Hn. unfold py_slice, py_norm. simpl.
  destruct (Z.of_nat n <? 0)%Z eqn:E; [lia|].
  f_equal; lia.
Qed.

(** *** Slicing and finding a single character *)

Lemma find_index_char_app ch s1 s2 :
  lacks ch s1 = true ->
  find_index (String ch "") (s1 +:+ s2) = Nat.add (String.length s1) <$> find_index (String ch "") s2.
Proof.
  induction s1 as [|c s1 IH]; intros H.
  - rewrite str_app_nil_l. by destruct (find_index _ s2).
  - simpl in H. apply andb_prop in H as [Hc H].
    rewrite str_app_cons, find_index_cons, prefix_cons.
    destruct (ascii_dec ch c) as [->|_]; [by rewrite Ascii.eqb_refl in Hc|].
    rewrite IH by done. by destruct (find_index _ s2).
Qed.

Lemma find_index_char_here ch s : find_index (String ch "") (String ch s) = Some 0.
Proof. rewrite find_index_cons, prefix_cons. destruct ascii_dec; [|done]. by rewrite prefix_nil. Qed.

Lemma find_index_char_none ch s : lacks ch s = true -> find_index (String ch "") s = None.
Proof.
  intros H. rewrite <- (str_app_nil_r s), find_index_char_app by done.
  rewrite find_index_nil. by destruct (String.prefix _ _) eqn:E.
Qed.

Lemma lacks_app ch s1 s2 : lacks ch (s1 +:+ s2) = lacks ch s1 && lacks ch s2.
Proof. apply str_forall_app. Qed.

Lemma substring_app_r s1 s2 n m :
  String.substring (String.length s1 + n) m (s1 +:+ s2) = String.substring n m s2.
Proof. induction s1 as [|c s1 IH]; [done|]. rewrite str_app_cons. simpl. apply IH. Qed.

Lemma substring_app_l s u : String.substring 0 (String.length s) (s +:+ u) = s.
Proof. induction s as [|c s IH]; [by destruct u|]. rewrite str_app_cons. simpl. by rewrite IH. Qed.

Lemma substring_all s : String.substring 0 (String.length s) s = s.
Proof. rewrite <- (str_app_nil_r s) at 2. apply substring_app_l. Qed.

Lemma py_slice_nat s a b :
  a <= b <= String.length s ->
  py_slice s (Z.of_nat a) (Some (Z.of_nat b)) = String.substring a (b - a) s.
Proof.
  intros Hab. unfold py_slice, py_norm.
  destruct (Z.of_nat a <? 0)%Z eqn:Ea; [lia|]. destruct (Z.of_nat b <? 0)%Z eqn:Eb; [lia|].
  f_equal; lia.
Qed.

Lemma py_slice_from s a :
  a <= String.length s ->
  py_slice s (Z.of_nat a) None = String.substring a (String.length s - a) s.
Proof.
  intros Ha. unfold py_slice, py_norm.
  destruct (Z.of_nat a <? 0)%Z eqn:Ea; [lia|]. f_equal; lia.
Qed.

(** [(s1 + ch + s2)[:len(s1)] == s1] and [(s1 + ch + s2)[len(s1)+1:] == s2]. *)
Lemma py_slice_before s1 ch s2 :
  py_slice (s1 +:+ String ch s2) 0 (Some (Z.of_nat (String.length s1))) = s1.
Proof.
  rewrite (py_slice_nat _ 0) by (rewrite str_app_length; simpl; lia).
  rewrite Nat.sub_0_r. apply substring_app_l.
Qed.

Lemma py_slice_after s1 ch s2 :
  py_slice (s1 +:+ String ch s2) (Z.of_nat (String.length s1) + 1) None = s2.
Proof.
  replace (Z.of_nat (String.length s1) + 1)%Z with (Z.of_nat (String.length s1 + 1)) by lia.
  rewrite py_slice_from by (rewrite str_app_length; simpl; lia).
  rewrite str_app_length. simpl.
  replace (String.length s1 + S (String.length s2) - (String.length s1 + 1))
    with (String.length s2) by lia.
  rewrite substring_app_r. change (String.substring 1 (String.length s2) (String ch s2))
    with (String.substring 0 (String.length s2) s2). apply substring_all.
Qed.

Lemma py_find_char_at ch s1 s2 :
  lacks ch s1 = true -> py_find (s1 +:+ String ch s2) (String ch "") = Z.of_nat (String.length s1).
Proof.
  intros H. unfold py_find. rewrite find_index_char_app, find_index_char_here by done.
  simpl. by rewrite Nat.add_0_r.
Qed.

Lemma py_find_char_none ch s : lacks ch s = true -> py_find s (String ch "") = (-1)%Z.
Proof. intros H. unfold py_find. by rewrite find_index_char_none. Qed.

Lemma py_slice_between s1 ch s2 rest :
  py_slice (s1 +:+ String ch (s2 +:+ rest)) (Z.of_nat (String.length s1) + 1)
    (Some (Z.of_nat (String.length s1 + S (String.length s2)))) = s2.
Proof.
  replace (Z.of_nat (String.length s1) + 1)%Z with (Z.of_nat (String.length s1 + 1)) by lia.
  rewrite py_slice_nat by (rewrite str_app_length; simpl; rewrite str_app_length; lia).
  replace (String.length s1 + S (String.length s2) - (String.length s1 + 1))
    with (String.length s2) by lia.
  rewrite substring_app_r. apply substring_app_l.
Qed.

Lemma Z_of_nat_neq_m1 n : (Z.of_nat n =? -1)%Z = false.
Proof. apply Z.eqb_neq. lia. Qed.

(** [(p + s)[len(p):] == s]. *)
Lemma py_slice_drop p s : py_slice (p +:+ s) (Z.of_nat (String.length p)) None = s.
Proof.
  rewrite py_slice_from by (rewrite str_app_length; lia). rewrite str_app_length.
  replace (String.length p + String.length s - String.length p) with (String.length s) by lia.
  rewrite <- (Nat.add_0_r (String.length p)) at 1. rewrite substring_app_r. apply substring_all.
Qed.

Lemma substring_at s1 s2 s3 n m :
  String.length s1 = n -> String.length s2 = m -> String.substring n m (s1 +:+ s2 +:+ s3) = s2.
Proof.
  intros <- <-. rewrite <- (Nat.add_0_r (String.length s1)), substring_app_r.
  apply substring_app_l.
Qed.

Lemma str_forall_filter_mono p q s : str_forall p s = true -> str_forall p (str_filter q s) = true.
Proof.
  induction s as [|c s IH]; [done|]. simpl. intros [Hc Hs]%andb_prop.
  destruct (q c); simpl; [rewrite Hc|]; auto.
Qed.

(** On ASCII characters [isdigit] and [int]'s decimal digits agree. *)
Lemma ascii_digit_decimal c :
  is_ascii c = true -> is_digit_char c = true -> is_decimal_char c = true.
Proof.
  assert (implb (is_ascii c && is_digit_char c) (is_decimal_char c) = true) as H
    by (destruct c as [[] [] [] [] [] [] [] []]; reflexivity).
  intros H1 H2. rewrite H1, H2 in H. exact H.
Qed.

Lemma isdigit_ascii_decimal s :
  str_forall is_ascii s = true -> py_isdigit s = true -> is_decimal s = true.
Proof.
  unfold py_isdigit, is_decimal. intros Ha [Hne Hd]%andb_prop. rewrite Hne. simpl.
  clear Hne. induction s as [|c s IH]; [done|]. simpl in *.
  apply andb_prop in Ha as [Ha1 Ha2]. apply andb_prop in Hd as [Hd1 Hd2].
  rewrite (ascii_digit_decimal c), IH; done.
Qed.

(** ** Splitting at the first separator *)

Lemma split_first_spec ch s :
  match split_first ch s with
  | Some (u, v) => s = u +:+ String ch v /\ lacks ch u = true
  | None => lacks ch s = true
  end.
Proof.
  induction s as [|c s IH]; [done|]. cbn [split_first].
  destruct ascii_dec as [->|Hne].
  - by rewrite str_app_nil_l.
  - destruct (split_first ch s) as [[u v]|]; unfold lacks; cbn [str_forall];
      rewrite ?str_app_cons; destruct (Ascii.eqb_spec c ch); try done.
    destruct IH as [-> IH]. done.
Qed.

Lemma split_first_at ch u v : lacks ch u = true -> split_first ch (u +:+ String ch v) = Some (u, v).
Proof.
  induction u as [|c u IH]; intros Hu.
  - rewrite str_app_nil_l. cbn. by destruct ascii_dec.
  - rewrite str_app_cons. unfold lacks in Hu. cbn [str_forall] in Hu.
    apply andb_prop in Hu as [Hc Hu]. cbn [split_first]. rewrite IH by done.
    destruct ascii_dec as [->|]; [by rewrite Ascii.eqb_refl in Hc|done].
Qed.

Lemma split_first_app_some ch a t u v :
  split_first ch a = Some (u, v) -> split_first ch (a +:+ t) = Some (u, v +:+ t).
Proof.
  pose proof (split_first_spec ch a) as Hs. intros E. rewrite E in Hs. destruct Hs as [-> Hu].
  rewrite <- str_app_assoc, str_app_cons. by apply split_first_at.
Qed.

(** A slice whose end is not after its start is empty. *)
Lemma py_slice_empty s a b :
  b <= a <= String.length s -> py_slice s (Z.of_nat a) (Some (Z.of_nat b)) = "".
Proof.
  intros Hab. unfold py_slice, py_norm.
  rewrite !(proj2 (Z.ltb_ge _ _)) by lia. rewrite !Z.min_l by lia. rewrite !Nat2Z.id.
  replace (b - a) with 0 by lia. clear Hab. revert a.
  induction s as [|c s IH]; intros [|a]; simpl; auto.
Qed.

(** [int] of a digit string is a natural number. *)
Lemma dec_acc_nonneg acc s :
  str_forall is_decimal_char s = true -> (0 <= acc)%Z -> (0 <= dec_acc acc s)%Z.
Proof.
  revert acc. induction s as [|c s IH]; intros acc Hs Hacc; [done|].
  cbn [str_forall] in Hs. apply andb_prop in Hs as [Hc Hs]. cbn [dec_acc]. apply IH; [done|].
  unfold is_decimal_char in Hc. apply andb_prop in Hc as [Hc _]. apply Nat.leb_le in Hc. lia.
Qed.

Lemma py_int_str_nonneg s a : py_int_str s = Ok a -> (0 <= a)%Z.
Proof.
  unfold py_int_str, py_int_accepts, is_decimal.
  destruct (negb _ && _ && _) eqn:E; [|discriminate].
  intros [= <-]. apply andb_prop in E as [E _]. apply andb_prop in E as [_ E].
  by apply dec_acc_nonneg.
Qed.

(** [int] rejects a string that is not a decimal literal or that has
    more digits than the limit. *)
Lemma py_int_accepts_false s :
  py_int_accepts s = false <-> is_decimal s = false \/ (int_max_str_digits < String.length s)%nat.
Proof.
  unfold py_int_accepts. rewrite andb_false_iff, Nat.leb_gt. done.
Qed.
