(* ===== verification/Tables.v ===== *)
(** * The class attributes of [Assembler]: encoding tables and symbols

    [comp_table], [jump_table], [dest_table] and [predefined_symbols]
    (src/hack-assemble.py, lines 8-37) are Python dicts written as
    literals.  Each is modelled by the list of its entries in source
    order ([*_entries]) and the [gmap] built from it, which is the dict;
    a subscript [table[k]] is [table_get], which raises [KeyError k] on
    a missing key.

    The class [FieldTable] states what a code table promises to the
    encoder: distinct keys, codes of one fixed width made of 0/1, and
    every key the parser can produce recovered from its code by
    [first_key].  The three instances are discharged by computation. *)

From Stdlib Require Import ZArith Lia Ascii.
From stdpp Require Import base list strings gmap.
From S2P Require Import Prelude PyStr.

(** ** Python values stored in the symbol table *)

(** [predefined_symbols] maps names to the Python strings ["0"], ["1"],
    ...; [find_variables] later stores Python ints.  Both kinds live in
    [self.variables]. *)
Inductive pyval : Type :=
  | PStr (s : string)
  | PInt (z : Z).

#[export] Instance pyval_eq_dec : EqDecision pyval.
Proof. solve_decision. Defined.

(** ** The tables *)

Definition comp_entries : list (option string * string) := [
  (Some "0", "0101010"); (Some "1", "0111111"); (Some "-1", "0111010");
  (Some "D", "0001100"); (Some "A", "0110000"); (Some "M", "1110000");
  (Some "!D", "0001101"); (Some "!A", "0110001"); (Some "!M", "1110001");
  (Some "-D", "0001111"); (Some "-A", "0110011"); (Some "-M", "1110011");
  (Some "D+1", "0011111"); (Some "A+1", "0110111"); (Some "M+1", "1110111");
  (Some "D-1", "0001110"); (Some "A-1", "0110010"); (Some "M-1", "1110010");
  (Some "D+A", "0000010"); (Some "D+M", "1000010"); (Some "D-A", "0010011");
  (Some "D-M", "1010011"); (Some "A-D", "0000111"); (Some "M-D", "1000111");
  (Some "D&A", "0000000"); (Some "D&M", "1000000"); (Some "D|A", "0010101");
  (Some "D|M", "1010101"); (None, "0000000")].

Definition comp_table : gmap (option string) string := list_to_map comp_entries.

Definition jump_entries : list (option string * string) := [
  (None, "000"); (Some "JGT", "001"); (Some "JEQ", "010"); (Some "JGE", "011");
  (Some "JLT", "100"); (Some "JNE", "101"); (Some "JLE", "110"); (Some "JMP", "111")].

Definition jump_table : gmap (option string) string := list_to_map jump_entries.

Definition dest_entries : list (option string * string) := [
  (None, "000"); (Some "M", "001"); (Some "D", "010"); (Some "MD", "011");
  (Some "A", "100"); (Some "AM", "101"); (Some "AD", "110"); (Some "ADM", "111")].

Definition dest_table : gmap (option string) string := list_to_map dest_entries.

Definition predefined_entries : list (string * pyval) := [
  ("R0", PStr "0"); ("R1", PStr "1"); ("R2", PStr "2"); ("R3", PStr "3");
  ("R4", PStr "4"); ("R5", PStr "5"); ("R6", PStr "6"); ("R7", PStr "7");
  ("R8", PStr "8"); ("R9", PStr "9"); ("R10", PStr "10"); ("R11", PStr "11");
  ("R12", PStr "12"); ("R13", PStr "13"); ("R14", PStr "14");
  ("R15", PStr "15"); ("SCREEN", PStr "16384"); ("KBD", PStr "24576");
  ("SP", PStr "0"); ("LCL", PStr "1"); ("ARG", PStr "2"); ("THIS", PStr "3");
  ("THAT", PStr "4")].

Definition predefined_symbols : gmap string pyval := list_to_map predefined_entries.

(** The dicts are large closed terms: [simpl] must not normalize them. *)
Arguments comp_table : simpl never.
Arguments jump_table : simpl never.
Arguments dest_table : simpl never.
Arguments predefined_symbols : simpl never.

(** [table[k]]. *)
Definition table_get (t : gmap (option string) string) (k : option string) : res string :=
  match t !! k with
  | Some v => Ok v
  | None => Raise (KeyError k)
  end.

(** ** What a code table promises *)

Definition is_bit (c : ascii) : bool :=
  if ascii_dec c "0" then true else if ascii_dec c "1" then true else false.

(** The key of the first entry with code [v], the decoder of a field. *)
Fixpoint first_key (t : list (option string * string)) (v : string) : option (option string) :=
  match t with
  | [] => None
  | (k, v') :: t' => if String.eqb v v' then Some k else first_key t' v
  end.

(** [used k] says whether the parser can produce key [k]: a computation
    is always a string, so the [None] key of [comp_table] is never
    looked up. *)
Class FieldTable (t : list (option string * string)) (w : nat)
    (used : option string -> bool) : Prop := {
  field_keys : NoDup t.*1;
  field_codes : Forall (fun kv => String.length kv.2 = w /\ str_forall is_bit kv.2 = true) t;
  field_decode : Forall (fun kv => used kv.1 = true -> first_key t kv.2 = Some kv.1) t
}.

Ltac decide_table := split; apply (bool_decide_unpack _); vm_compute; reflexivity.

#[export] Instance comp_field : FieldTable comp_entries 7 (fun k => bool_decide (is_Some k)).
Proof. decide_table. Qed.
#[export] Instance dest_field : FieldTable dest_entries 3 (fun _ => true).
Proof. decide_table. Qed.
#[export] Instance jump_field : FieldTable jump_entries 3 (fun _ => true).
Proof. decide_table. Qed.

Section FieldTableFacts.
Context (t : list (option string * string)) (w : nat) (used : option string -> bool).
Context `{!FieldTable t w used}.

Lemma table_get_entry k v : table_get (list_to_map t) k = Ok v -> (k, v) ∈ t.
Proof.
  unfold table_get. destruct (list_to_map t !! k) eqn:E; [|discriminate].
  intros [= <-]. by apply elem_of_list_to_map_2.
Qed.

Lemma table_get_key k v : table_get (list_to_map t) k = Ok v -> k ∈ t.*1.
Proof. intros H%table_get_entry. apply list_elem_of_fmap. by exists (k, v). Qed.

Lemma table_get_code k v :
  table_get (list_to_map t) k = Ok v ->
  String.length v = w /\ str_forall is_bit v = true.
Proof.
  intros H%table_get_entry.
  pose proof field_codes as Hc. rewrite Forall_forall in Hc. exact (Hc _ H).
Qed.

Lemma table_get_decode k v :
  table_get (list_to_map t) k = Ok v -> used k = true -> first_key t v = Some k.
Proof.
  intros H%table_get_entry.
  pose proof field_decode as Hd. rewrite Forall_forall in Hd. exact (Hd _ H).
Qed.

(** A lookup succeeds exactly on the keys of the table. *)
Lemma table_get_defined k :
  (exists v, table_get (list_to_map t) k = Ok v) <-> k ∈ t.*1.
Proof.
  unfold table_get. split.
  - intros [v Hv]. destruct (list_to_map t !! k) eqn:E; [|discriminate].
    apply elem_of_list_to_map_2 in E. apply list_elem_of_fmap. by exists (k, s).
  - intros Hk. apply list_elem_of_fmap in Hk as [[k' v] [-> Hin]].
    rewrite (elem_of_list_to_map_1 t k' v field_keys Hin). by eexists.
Qed.

Lemma table_get_Raise k e :
  table_get (list_to_map t) k = Raise e -> e = KeyError k /\ k ∉ t.*1.
Proof.
  unfold table_get. destruct (list_to_map t !! k) eqn:E; [discriminate|].
  intros [= <-]. split; [done|]. by apply not_elem_of_list_to_map_2.
Qed.

Lemma table_get_missing k :
  k ∉ t.*1 -> table_get (list_to_map t) k = Raise (KeyError k).
Proof.
  intros Hk. unfold table_get.
  by rewrite (not_elem_of_list_to_map_1 t k Hk).
Qed.
End FieldTableFacts.

Lemma predefined_keys : NoDup predefined_entries.*1.
Proof. apply (bool_decide_unpack _). vm_compute. reflexivity. Qed.
