(* ===== verification/State.v ===== *)
(** * The state of an [Assembler] object

    [__init__] (src/hack-assemble.py, lines 43-49) creates five fields;
    every later stage reads some of them and overwrites one or two.  The
    record [Assembler] holds them, [Assembler_fields] is the state right
    after the assignments of [__init__], and the [set_*] functions are
    the field assignments [self.f = ...] of the stages.

    The intermediate instructions are Python dicts
    [{"type": "A", "address": int}] and
    [{"type": "C", "dest": .., "comp": .., "jump": ..}] (lines 136-179);
    they are the two constructors of [instr]. *)

From Stdlib Require Import ZArith.
From stdpp Require Import base list strings gmap.
From S2P Require Import Prelude PyStr Tables.

Inductive instr : Type :=
  | A_ins (address : Z)
  | C_ins (dest : option string) (comp : string) (jump : option string).

#[export] Instance instr_eq_dec : EqDecision instr.
Proof. solve_decision. Defined.

Record Assembler : Type := mkAssembler {
  assembly_code : list string;
  intermediary_code : list instr;
  machine_code : list string;
  labels : gmap string Z;
  variables : gmap string pyval
}.

(** The fields after lines 44-49: [variables] starts as a copy of the
    class attribute [predefined_symbols].  The copy matters in Python
    (without it the run would mutate the class-wide dict); a [gmap] is a
    value, so the model has no aliasing to track. *)
Definition Assembler_fields (code : list string) : Assembler := {|
  assembly_code := code;
  intermediary_code := [];
  machine_code := [];
  labels := ∅;
  variables := predefined_symbols
|}.

Definition set_assembly_code (code : list string) (st : Assembler) : Assembler :=
  {| assembly_code := code; intermediary_code := intermediary_code st;
     machine_code := machine_code st; labels := labels st; variables := variables st |}.

Definition set_labels (l : gmap string Z) (st : Assembler) : Assembler :=
  {| assembly_code := assembly_code st; intermediary_code := intermediary_code st;
     machine_code := machine_code st; labels := l; variables := variables st |}.

Definition set_variables (v : gmap string pyval) (st : Assembler) : Assembler :=
  {| assembly_code := assembly_code st; intermediary_code := intermediary_code st;
     machine_code := machine_code st; labels := labels st; variables := v |}.

Definition set_intermediary_code (ic : list instr) (st : Assembler) : Assembler :=
  {| assembly_code := assembly_code st; intermediary_code := ic;
     machine_code := machine_code st; labels := labels st; variables := variables st |}.

Definition set_machine_code (mc : list string) (st : Assembler) : Assembler :=
  {| assembly_code := assembly_code st; intermediary_code := intermediary_code st;
     machine_code := mc; labels := labels st; variables := variables st |}.

(** [k in d] for a dict [d] with string keys. *)
Definition py_in {V : Type} (k : string) (m : gmap string V) : bool :=
  bool_decide (is_Some (m !! k)).

Lemma py_in_false {V : Type} k (m : gmap string V) : py_in k m = false <-> m !! k = None.
Proof. unfold py_in. rewrite bool_decide_eq_false, <- eq_None_not_Some. done. Qed.
