(* ===== verification/Normalizer.v ===== *)
(** * Normalizer: [Assembler.remove_unnecessary]

    src/hack-assemble.py, lines 61-73.  Each line loses all its
    whitespace (["".join(line.split())]), then everything from the first
    ["//"] on; lines that become empty are dropped.  [strip_line] is the
    body of the loop for one line, [remove_unnecessary_loop] the loop
    with its conditional append, [remove_unnecessary] the method.

    Theorems: every surviving line is clean (non-empty, no whitespace,
    no ["//"]); the pass is idempotent; whitespace anywhere in a line,
    even inside the comment marker, is insignificant; a comment is cut
    at its first ["//"]. *)

From Stdlib Require Import ZArith Lia Ascii.
From stdpp Require Import base list strings sets.
From S2P Require Import Prelude PyStr Tables State.

Module Normalizer.

(** Lines 64-68. *)
Definition strip_line (line : string) : string :=
  let stripped := py_join "" (py_split line) in
  let comment_start := py_find stripped "//" in
  if negb (Z.eqb comment_start (-1)) then py_slice stripped 0 (Some comment_start)
  else stripped.

(** Lines 62-71: the loop over the lines, appending the non-empty ones. *)
Fixpoint remove_unnecessary_loop (code : list string) : list string :=
  match code with
  | [] => []
  | line :: rest =>
      let stripped := strip_line line in
      if String.eqb stripped "" then remove_unnecessary_loop rest
      else stripped :: remove_unnecessary_loop rest
  end.

(** Lines 61-73. *)
Definition remove_unnecessary (st : Assembler) : Assembler :=
  set_assembly_code (remove_unnecessary_loop (assembly_code st)) st.

(** A line as the later stages receive it. *)
Definition clean_line (s : string) : Prop :=
  s <> "" /\ str_forall (fun c => negb (is_space c)) s = true /\ find_index "//" s = None.

(** ** The loop body *)

Definition cut_comment (s : string) : string :=
  match find_index "//" s with
  | Some n => String.substring 0 n s
  | None => s
  end.

Lemma strip_line_eq line : strip_line line = cut_comment (remove_spaces line).
Proof.
  unfold strip_line, cut_comment, py_find. rewrite join_split.
  destruct (find_index "//" (remove_spaces line)) as [n|] eqn:E; simpl.
  - destruct (Z.of_nat n =? -1)%Z eqn:Hn; [apply Z.eqb_eq in Hn; lia|]. simpl.
    apply py_slice_prefix. by eapply find_index_bound.
  - done.
Qed.

Lemma cut_comment_clean s :
  str_forall (fun c => negb (is_space c)) s = true ->
  str_forall (fun c => negb (is_space c)) (cut_comment s) = true /\
  find_index "//" (cut_comment s) = None.
Proof.
  unfold cut_comment. destruct (find_index "//" s) as [n|] eqn:E; [|done].
  intros Hs. split; [by apply str_forall_substring|].
  by apply find_index_before.
Qed.

Lemma strip_line_nospace line :
  str_forall (fun c => negb (is_space c)) (strip_line line) = true /\
  find_index "//" (strip_line line) = None.
Proof. rewrite strip_line_eq. apply cut_comment_clean, str_forall_filter. Qed.

(** A clean line is its own normal form. *)
Lemma strip_line_clean s : clean_line s -> strip_line s = s.
Proof.
  intros (_ & Hsp & Hc). rewrite strip_line_eq, remove_spaces_nospace by done.
  unfold cut_comment. by rewrite Hc.
Qed.

(** Normalization only removes characters. *)
Lemma strip_line_forall p line :
  str_forall p line = true -> str_forall p (strip_line line) = true.
Proof.
  intros H. rewrite strip_line_eq. unfold cut_comment.
  pose proof (str_forall_filter_mono p (fun c => negb (is_space c)) line H) as H'.
  destruct (find_index "//" _); [by apply str_forall_substring|done].
Qed.

(** The loop is a map followed by a filter. *)
Lemma remove_unnecessary_loop_spec code :
  remove_unnecessary_loop code = filter (fun s => s <> "") (strip_line <$> code).
Proof.
  induction code as [|line code IH]; [done|]. simpl.
  rewrite filter_cons. destruct (String.eqb_spec (strip_line line) "") as [E|E].
  - rewrite decide_False by auto. done.
  - rewrite decide_True by done. by f_equal.
Qed.

Lemma remove_unnecessary_loop_forall p code :
  Forall (fun line => str_forall p line = true) code ->
  Forall (fun line => str_forall p line = true) (remove_unnecessary_loop code).
Proof.
  rewrite !Forall_forall, remove_unnecessary_loop_spec. intros H s.
  intros [_ (line & -> & Hin)%list_elem_of_fmap]%list_elem_of_filter.
  by apply strip_line_forall, H.
Qed.

Lemma remove_unnecessary_loop_app l1 l2 :
  remove_unnecessary_loop (l1 ++ l2) = remove_unnecessary_loop l1 ++ remove_unnecessary_loop l2.
Proof. rewrite !remove_unnecessary_loop_spec, fmap_app. apply filter_app. Qed.


Lemma prefix_slashes c s t :
  String.prefix "//" (String c (s +:+ "//" +:+ t)) = String.prefix "//" (String c (s +:+ "/")).
Proof.
  destruct s as [|d s]; rewrite ?str_app_nil_l, ?str_app_cons, !prefix_cons;
    destruct (ascii_dec "/" c); try done; by rewrite !prefix_nil.
Qed.

(** The first ["//"] of [s ++ "//" ++ t] is the one after [s] when [s]
    (followed by one slash) contains none. *)
Lemma find_slash_app s t :
  find_index "//" (s +:+ "/") = None ->
  find_index "//" (s +:+ "//" +:+ t) = Some (String.length s).
Proof.
  induction s as [|c s IH].
  { intros _. rewrite !str_app_nil_l, !str_app_cons, find_index_cons, !prefix_cons, prefix_nil.
    by repeat destruct ascii_dec. }
  rewrite (str_app_cons c s "/"), (str_app_cons c s ("//" +:+ t)), !find_index_cons, prefix_slashes. destruct (String.prefix "//" (String c (s +:+ "/"))); [done|].
  destruct (find_index "//" (s +:+ "/")); [done|]. intros _. by rewrite IH.
Qed.

(** ** Properties of the Normalizer *)

Lemma remove_unnecessary_lines_clean st s :
  s ∈ assembly_code (remove_unnecessary st) -> clean_line s.
Proof.
  simpl. rewrite remove_unnecessary_loop_spec.
  intros [Hne (line & -> & _)%list_elem_of_fmap]%list_elem_of_filter.
  split; [done|]. apply strip_line_nospace.
Qed.

(** C11: every line left by [remove_unnecessary] is non-empty, holds no
    whitespace character and no comment marker ["//"]. *)
Theorem remove_unnecessary_clean st s :
  s ∈ assembly_code (remove_unnecessary st) -> clean_line s.
Proof. exact (remove_unnecessary_lines_clean st s). Qed.

(** C27: normalizing twice is normalizing once. *)
Theorem remove_unnecessary_idem st :
  remove_unnecessary (remove_unnecessary st) = remove_unnecessary st.
Proof.
  assert (forall code, (forall s, s ∈ code -> clean_line s) ->
          remove_unnecessary_loop code = code) as Hid.
  { induction code as [|s code IH]; intros Hc; [done|]. simpl.
    rewrite strip_line_clean by (apply Hc; set_solver).
    destruct (Hc s) as [Hne _]; [set_solver|].
    destruct (String.eqb_spec s ""); [done|]. rewrite IH; [done|].
    intros; apply Hc; set_solver. }
  unfold remove_unnecessary at 1. rewrite Hid; [by destruct st|].
  apply remove_unnecessary_lines_clean.
Qed.

(** C28: a whitespace character anywhere in a line, including inside a token
    or between the two slashes of a comment marker, does not change the
    normalized line. *)
Theorem strip_line_space_insensitive s1 c s2 :
  is_space c = true -> strip_line (s1 +:+ String c s2) = strip_line (s1 +:+ s2).
Proof.
  intros Hc. rewrite !strip_line_eq, !remove_spaces_app. unfold remove_spaces at 2. simpl.
  by rewrite Hc.
Qed.

(** C29: a comment is cut at its first ["//"]: when the code part [s] has no
    ["//"] once its whitespace is removed (and does not end with a
    slash), the line normalizes to [s] without its whitespace. *)
Theorem strip_line_comment s t :
  find_index "//" (remove_spaces s +:+ "/") = None ->
  strip_line (s +:+ "//" +:+ t) = remove_spaces s.
Proof.
  intros H. rewrite strip_line_eq, !remove_spaces_app. unfold cut_comment.
  change (remove_spaces "//") with "//".
  rewrite find_slash_app by done. apply substring_app_l.
Qed.

(** ** Witnesses *)

Lemma remove_unnecessary_clean_witness :
  "D=M" ∈ assembly_code (remove_unnecessary (Assembler_fields [" D = M // x"; "  "])) /\
  clean_line "D=M".
Proof.
  assert (Hin : "D=M" ∈ assembly_code (remove_unnecessary (Assembler_fields [" D = M // x"; "  "])))
    by decide_vm.
  split; [exact Hin | exact (remove_unnecessary_clean _ _ Hin)].
Defined.

Lemma strip_line_space_insensitive_witness :
  is_space " "%char = true /\ strip_line ("D" +:+ String " " "=M") = strip_line ("D" +:+ "=M").
Proof. split; [reflexivity | apply strip_line_space_insensitive; reflexivity]. Defined.

Lemma strip_line_comment_witness :
  find_index "//" (remove_spaces "D = M " +:+ "/") = None /\
  strip_line ("D = M " +:+ "//" +:+ " note") = remove_spaces "D = M ".
Proof. split; [reflexivity | apply strip_line_comment; reflexivity]. Defined.


End Normalizer.
