(* ===== verification/Labels.v ===== *)
(** * Symbol Resolver, label pass: [Assembler.find_labels]

    src/hack-assemble.py, lines 83-99.  The loop of lines 87-95 walks
    the normalized lines with their index; a line starting with ["("]
    binds [line[1:-1]] to the current instruction count in
    [self.labels] and records its index, any other line increments the
    count.  Lines 98-99 then delete the recorded lines, last index
    first ([sorted(label_indexes, reverse=True)]).

    [find_labels_loop] is the loop, [py_del] and [del_indexes] the
    deletions ([del l[i]] raises [IndexError] out of range), and
    [find_labels] the method, which returns [Raise] if a deletion does.

    Theorems: the deletions never raise and leave exactly the non-label
    lines in order (the index bookkeeping is right); each label is bound
    to the number of instructions before its last declaration; label
    addresses lie within the program. *)

From Stdlib Require Import ZArith Lia.
From stdpp Require Import base list strings gmap sorting sets.
From S2P Require Import Prelude PyStr Tables State.

Module Labels.

(** [line.startswith("(")]. *)
Definition is_label (line : string) : bool := py_startswith line "(".

(** [line[1:-1]]. *)
Definition label_name (line : string) : string := py_slice line 1 (Some (-1)%Z).

(** Lines 84-95: [index] is the [enumerate] index, the result is the
    final [self.labels] and [label_indexes]. *)
Fixpoint find_labels_loop (code : list string) (index : nat) (cur_instruction : Z)
    (lbls : gmap string Z) (label_indexes : list nat) : gmap string Z * list nat :=
  match code with
  | [] => (lbls, label_indexes)
  | line :: rest =>
      if is_label line then
        find_labels_loop rest (S index) cur_instruction
          (<[label_name line := cur_instruction]> lbls) (label_indexes ++ [index])
      else find_labels_loop rest (S index) (cur_instruction + 1) lbls label_indexes
  end.

(** [del l[i]]. *)
Definition py_del {A : Type} (i : nat) (l : list A) : res (list A) :=
  if decide (i < length l) then Ok (take i l ++ drop (S i) l) else Raise (IndexError i).

(** Lines 98-99: [for i in idxs: del self.assembly_code[i]]. *)
Fixpoint del_indexes {A : Type} (idxs : list nat) (l : list A) : res (list A) :=
  match idxs with
  | [] => Ok l
  | i :: idxs' => l' <- py_del i l ;; del_indexes idxs' l'
  end.

Definition nat_ge (x y : nat) : Prop := y ≤ x.
#[export] Instance nat_ge_dec : RelDecision nat_ge := fun x y => decide (y ≤ x).

(** [sorted(l, reverse=True)]: a stable sort for the order [>=]. *)
Definition sorted_desc (l : list nat) : list nat := merge_sort nat_ge l.

(** Lines 83-99. *)
Definition find_labels (st : Assembler) : res Assembler :=
  let '(lbls, label_indexes) := find_labels_loop (assembly_code st) 0 0 (labels st) [] in
  code <- del_indexes (sorted_desc label_indexes) (assembly_code st) ;;
  Ok (set_assembly_code code (set_labels lbls st)).

(** ** The recorded indexes *)

(** The indexes of the label lines of [code], counted from [k]. *)
Fixpoint label_positions (code : list string) (k : nat) : list nat :=
  match code with
  | [] => []
  | line :: rest => (if is_label line then [k] else []) ++ label_positions rest (S k)
  end.

(** The number of instructions, i.e. of lines that are not labels. *)
Definition instructions (code : list string) : list string :=
  filter (fun l => is_label l = false) code.

Lemma find_labels_loop_indexes code k cur lbls acc :
  (find_labels_loop code k cur lbls acc).2 = acc ++ label_positions code k.
Proof.
  revert k cur lbls acc. induction code as [|line code IH]; intros k cur lbls acc; simpl.
  - by rewrite app_nil_r.
  - destruct (is_label line); rewrite IH; [by rewrite <- app_assoc | done].
Qed.

Lemma label_positions_snoc code x k :
  label_positions (code ++ [x]) k =
  label_positions code k ++ (if is_label x then [k + length code] else []).
Proof.
  revert k. induction code as [|line code IH]; intros k; simpl.
  - rewrite Nat.add_0_r, !app_nil_r. done.
  - rewrite IH, app_assoc. by rewrite Nat.add_succ_r.
Qed.

Lemma label_positions_bound code k :
  Forall (fun i => k <= i < k + length code) (label_positions code k).
Proof.
  revert k. induction code as [|line code IH]; intros k; simpl; [done|].
  apply Forall_app. split.
  - destruct (is_label line); repeat constructor; lia.
  - eapply Forall_impl; [apply IH|]. simpl; lia.
Qed.

(** The recorded indexes, last first, are sorted in decreasing order;
    so [sorted(..., reverse=True)] is the reversal. *)
Lemma sorted_desc_positions code :
  sorted_desc (label_positions code 0) = rev (label_positions code 0).
Proof.
  assert (AntiSymm eq nat_ge) by (intros x y ??; unfold nat_ge in *; lia).
  apply (StronglySorted_unique nat_ge).
  - apply StronglySorted_merge_sort; unfold nat_ge; [intros ???; lia | intros x y; lia].
  - induction code as [|x code IH] using rev_ind; [constructor|].
    rewrite label_positions_snoc, rev_app_distr.
    destruct (is_label x); simpl; [|done]. constructor; [done|].
    eapply Forall_impl; [apply Forall_rev, (label_positions_bound code 0)|].
    unfold nat_ge; simpl; lia.
  - unfold sorted_desc. rewrite merge_sort_Permutation. by rewrite <- Permutation_rev.
Qed.

(** ** The deletions *)

Lemma del_indexes_app {A : Type} idxs (l l' s : list A) :
  del_indexes idxs l = Ok l' -> del_indexes idxs (l ++ s) = Ok (l' ++ s).
Proof.
  revert l. induction idxs as [|i idxs IH]; intros l; simpl; [by intros [= ->]|].
  unfold py_del. rewrite length_app.
  destruct (decide (i < length l)); simpl; [|discriminate].
  rewrite decide_True by lia. rewrite take_app_le, drop_app_le, app_assoc by lia.
  apply IH.
Qed.

(** Deleting the label lines, last first, leaves the instructions. *)
Lemma del_label_lines code :
  del_indexes (rev (label_positions code 0)) code = Ok (instructions code).
Proof.
  induction code as [|x code IH] using rev_ind; [done|].
  rewrite label_positions_snoc, rev_app_distr. unfold instructions. rewrite filter_app.
  destruct (is_label x) eqn:Hx; simpl.
  - unfold py_del. rewrite length_app. simpl. rewrite decide_True by lia. simpl.
    rewrite take_app_length, drop_app_ge, Nat.sub_succ_l, Nat.sub_diag by lia. simpl.
    rewrite app_nil_r, IH. rewrite filter_cons_False by congruence. by rewrite app_nil_r.
  - rewrite filter_cons_True by done. by apply del_indexes_app.
Qed.

(** ** The label map *)

Lemma find_labels_loop_app c1 c2 k cur lbls acc :
  find_labels_loop (c1 ++ c2) k cur lbls acc =
  let '(l1, a1) := find_labels_loop c1 k cur lbls acc in
  find_labels_loop c2 (k + length c1) (cur + Z.of_nat (length (instructions c1))) l1 a1.
Proof.
  revert k cur lbls acc. induction c1 as [|line c1 IH]; intros k cur lbls acc; simpl.
  - by rewrite Nat.add_0_r, Z.add_0_r.
  - unfold instructions. rewrite filter_cons.
    destruct (is_label line) eqn:Hl; rewrite IH;
      destruct (find_labels_loop c1 _ _ _ _); simpl; fold (instructions c1); f_equal; lia.
Qed.

(** Lines that declare other labels leave a label untouched. *)
Lemma find_labels_loop_other code k cur lbls acc name :
  (forall line, line ∈ code -> is_label line = true -> label_name line <> name) ->
  (find_labels_loop code k cur lbls acc).1 !! name = lbls !! name.
Proof.
  revert k cur lbls acc. induction code as [|line code IH]; intros k cur lbls acc Hc; [done|].
  simpl. destruct (is_label line) eqn:Hl.
  - rewrite IH by (intros; apply Hc; set_solver).
    apply lookup_insert_ne, Hc; [set_solver | done].
  - apply IH. intros; apply Hc; set_solver.
Qed.

(** Every label is at most the number of instructions so far. *)
Lemma find_labels_loop_bound code k cur lbls acc name v :
  (0 <= cur)%Z ->
  (forall n w, lbls !! n = Some w -> 0 <= w <= cur)%Z ->
  (find_labels_loop code k cur lbls acc).1 !! name = Some v ->
  (0 <= v <= cur + Z.of_nat (length (instructions code)))%Z.
Proof.
  revert k cur lbls acc. induction code as [|line code IH]; intros k cur lbls acc H0 Hl.
  - simpl. intros Hv. specialize (Hl _ _ Hv). lia.
  - unfold instructions. rewrite filter_cons. simpl. fold (instructions code).
    destruct (is_label line) eqn:E.
    + rewrite decide_False by congruence. intros Hv. eapply IH; [done| |exact Hv].
      intros n w. rewrite lookup_insert. case_decide; [intros [= <-]; lia|]. apply Hl.
    + rewrite decide_True by done. simpl. intros Hv.
      eapply IH in Hv; [lia|lia|]. intros n w Hw. specialize (Hl n w Hw). lia.
Qed.

(** ** Properties of the label pass *)

Lemma find_labels_result st :
  find_labels st =
  Ok (set_assembly_code (instructions (assembly_code st))
        (set_labels (find_labels_loop (assembly_code st) 0 0 (labels st) []).1 st)).
Proof.
  unfold find_labels.
  pose proof (find_labels_loop_indexes (assembly_code st) 0 0 (labels st) []) as Hi.
  destruct (find_labels_loop (assembly_code st) 0 0 (labels st) []) as [lbls idxs]. simpl in *.
  subst idxs. by rewrite sorted_desc_positions, del_label_lines.
Qed.

(** C7: [find_labels] never raises, and deleting the recorded indexes
    from the last one leaves exactly the instruction lines, in order;
    the labels are those computed by the loop. *)
Theorem find_labels_spec st :
  find_labels st =
  Ok (set_assembly_code (instructions (assembly_code st))
        (set_labels (find_labels_loop (assembly_code st) 0 0 (labels st) []).1 st)).
Proof. exact (find_labels_result st). Qed.

Lemma find_labels_label st st' pre line post :
  find_labels st = Ok st' ->
  assembly_code st = pre ++ line :: post ->
  is_label line = true ->
  (forall l, l ∈ post -> is_label l = true -> label_name l <> label_name line) ->
  labels st' !! label_name line = Some (Z.of_nat (length (instructions pre))) /\
  assembly_code st' = instructions pre ++ instructions post.
Proof.
  rewrite find_labels_result. intros [= <-] Hcode Hl Hpost. simpl. rewrite Hcode.
  split; [|unfold instructions; rewrite filter_app, filter_cons_False by congruence; done].
  rewrite find_labels_loop_app.
  destruct (find_labels_loop pre 0 0 (labels st) []) as [l1 a1]. simpl. rewrite Hl.
  rewrite find_labels_loop_other by done. by rewrite lookup_insert_eq.
Qed.

(** C8: a label is bound to the number of instructions before its
    last declaration, which is the index of the next instruction in the
    label-free program; a later redeclaration wins. *)
Theorem find_labels_address st st' pre line post :
  find_labels st = Ok st' ->
  assembly_code st = pre ++ line :: post ->
  is_label line = true ->
  (forall l, l ∈ post -> is_label l = true -> label_name l <> label_name line) ->
  labels st' !! label_name line = Some (Z.of_nat (length (instructions pre))) /\
  assembly_code st' = instructions pre ++ instructions post.
Proof. exact (find_labels_label st st' pre line post). Qed.

(** C30: starting from an empty table, every label address lies between
    0 and the number of instructions of the label-free program. *)
Theorem find_labels_bound st st' name v :
  labels st = ∅ -> find_labels st = Ok st' -> labels st' !! name = Some v ->
  (0 <= v <= Z.of_nat (length (assembly_code st')))%Z.
Proof.
  rewrite find_labels_result. intros H0 [= <-]. simpl. rewrite H0. intros Hv.
  eapply find_labels_loop_bound in Hv; [lia|lia|]. intros n w. by rewrite lookup_empty.
Qed.

(** ** Witnesses *)

Lemma find_labels_address_witness :
  exists st', find_labels (Assembler_fields ["@LOOP"; "(LOOP)"; "0;JMP"]) = Ok st' /\
    labels st' !! label_name "(LOOP)" = Some (Z.of_nat (length (instructions ["@LOOP"]))) /\
    assembly_code st' = instructions ["@LOOP"] ++ instructions ["0;JMP"].
Proof.
  eexists. split; [reflexivity|].
  apply (find_labels_address (Assembler_fields ["@LOOP"; "(LOOP)"; "0;JMP"]) _
           ["@LOOP"] "(LOOP)" ["0;JMP"]); [reflexivity | reflexivity | reflexivity |].
  intros l Hl. apply list_elem_of_singleton in Hl as ->. discriminate.
Defined.

Lemma find_labels_bound_witness :
  exists st', find_labels (Assembler_fields ["@LOOP"; "(LOOP)"; "0;JMP"]) = Ok st' /\
    labels st' !! "LOOP" = Some 1%Z /\ (0 <= 1 <= Z.of_nat (length (assembly_code st')))%Z.
Proof.
  eexists. split; [reflexivity|]. split; [vm_compute; reflexivity|].
  apply (find_labels_bound (Assembler_fields ["@LOOP"; "(LOOP)"; "0;JMP"]) _ "LOOP" 1%Z);
    [reflexivity | reflexivity | vm_compute; reflexivity].
Defined.


End Labels.
