(* ===== verification/Variables.v ===== *)
(** * Symbol Resolver, variable pass: [Assembler.find_variables]

    src/hack-assemble.py, lines 105-119.  For every line starting with
    ["@"] whose operand [line[1:]] is not [isdigit] and is neither in
    [self.variables] nor in [self.labels], the operand is bound to the
    next free address, starting at 16.

    [find_variables_loop] is the loop, [find_variables] the method.  The
    abstract specification is [fresh_symbols]: the unknown symbols of the
    program, each once, in order of first occurrence; [number_from n fs]
    binds them to [n], [n+1], ...  The refinement theorem says the loop
    extends the table by exactly [number_from 16 fresh_symbols]; the
    other theorems follow from it. *)

From Stdlib Require Import ZArith Lia.
From stdpp Require Import base list strings gmap sets.
From S2P Require Import Prelude PyStr Tables State.

Module Variables.

(** [line.startswith("@")]. *)
Definition is_ainstr (line : string) : bool := py_startswith line "@".

(** [line[1:]]. *)
Definition a_symbol (line : string) : string := py_slice line 1 None.

(** Lines 106-119. *)
Fixpoint find_variables_loop (code : list string) (lbls : gmap string Z)
    (next_address : Z) (vars : gmap string pyval) : gmap string pyval :=
  match code with
  | [] => vars
  | line :: rest =>
      if negb (is_ainstr line) then find_variables_loop rest lbls next_address vars
      else
        let symbol := a_symbol line in
        if py_isdigit symbol then find_variables_loop rest lbls next_address vars
        else if negb (py_in symbol vars) && negb (py_in symbol lbls) then
          find_variables_loop rest lbls (next_address + 1)
            (<[symbol := PInt next_address]> vars)
        else find_variables_loop rest lbls next_address vars
  end.

(** Lines 105-119. *)
Definition find_variables (st : Assembler) : Assembler :=
  set_variables (find_variables_loop (assembly_code st) (labels st) 16 (variables st)) st.

(** ** Abstract specification *)

(** The operand of an address line that names a symbol. *)
Definition symbol_line (line : string) : bool :=
  is_ainstr line && negb (py_isdigit (a_symbol line)).

(** The symbols of the program that are not [known], each once, in order
    of first occurrence. *)
Fixpoint fresh_symbols (code : list string) (known : string -> bool) : list string :=
  match code with
  | [] => []
  | line :: rest =>
      if symbol_line line && negb (known (a_symbol line)) then
        a_symbol line :: fresh_symbols rest (fun x => known x || String.eqb x (a_symbol line))
      else fresh_symbols rest known
  end.

(** Symbols with a binding before the pass. *)
Definition known (vars : gmap string pyval) (lbls : gmap string Z) (x : string) : bool :=
  py_in x vars || py_in x lbls.

(** [fs] numbered from [n]. *)
Fixpoint number_from (n : Z) (fs : list string) : gmap string pyval :=
  match fs with
  | [] => ∅
  | s :: fs' => <[s := PInt n]> (number_from (n + 1) fs')
  end.

(** ** Lemmas on the specification *)

Lemma number_from_int n fs k v : number_from n fs !! k = Some v -> exists z, v = PInt z.
Proof.
  revert n. induction fs as [|s fs IH]; intros n; simpl; [done|].
  rewrite lookup_insert. case_decide; [intros [= <-]; eauto|apply IH].
Qed.

Lemma fresh_symbols_ext code k1 k2 :
  (forall x, k1 x = k2 x) -> fresh_symbols code k1 = fresh_symbols code k2.
Proof.
  revert k1 k2. induction code as [|line code IH]; intros k1 k2 Hk; [done|]. simpl.
  rewrite Hk. destruct (_ && _); [|by apply IH].
  f_equal. apply IH. intros x. by rewrite Hk.
Qed.

Lemma fresh_symbols_known code kn x :
  kn x = true -> x ∉ fresh_symbols code kn.
Proof.
  revert kn. induction code as [|line code IH]; intros kn Hx; simpl; [set_solver|].
  destruct (symbol_line line && negb (kn (a_symbol line))) eqn:E; [|by apply IH].
  apply andb_prop in E as [_ E]. rewrite not_elem_of_cons. split.
  - intros ->. by rewrite Hx in E.
  - apply IH. by rewrite Hx.
Qed.

Lemma fresh_symbols_NoDup code kn : NoDup (fresh_symbols code kn).
Proof.
  revert kn. induction code as [|line code IH]; intros kn; simpl; [constructor|].
  destruct (_ && _); [|done]. constructor; [|done].
  apply fresh_symbols_known. by rewrite String.eqb_refl, orb_true_r.
Qed.

(** Every unknown symbol of the program is in the list. *)
Lemma fresh_symbols_complete code kn line :
  line ∈ code -> symbol_line line = true -> kn (a_symbol line) = false ->
  a_symbol line ∈ fresh_symbols code kn.
Proof.
  revert kn. induction code as [|l code IH]; intros kn Hin Hs Hk; [set_solver|]. simpl.
  apply elem_of_cons in Hin as [<-|Hin].
  - rewrite Hs, Hk. set_solver.
  - destruct (symbol_line l && negb (kn (a_symbol l))); [|by apply IH].
    destruct (String.eqb_spec (a_symbol line) (a_symbol l)) as [->|Hne]; [set_solver|].
    apply elem_of_cons. right. apply IH; [done|done|].
    rewrite Hk. simpl. by apply String.eqb_neq.
Qed.

Lemma fresh_symbols_sound code kn x :
  x ∈ fresh_symbols code kn ->
  kn x = false /\ exists line, line ∈ code /\ symbol_line line = true /\ a_symbol line = x.
Proof.
  revert kn. induction code as [|line code IH]; intros kn; simpl; [set_solver|].
  destruct (symbol_line line && negb (kn (a_symbol line))) eqn:E.
  - apply andb_prop in E as [Hs Hk]. apply negb_true_iff in Hk.
    intros [->|(Hx & l & ?)%IH]%elem_of_cons; [split; [done|exists line; set_solver]|].
    apply orb_false_iff in Hx as [Hx _]. split; [done|]. exists l. set_solver.
  - intros (Hx & l & ?)%IH. split; [done|]. exists l. set_solver.
Qed.

Lemma number_from_None n fs k : k ∉ fs -> number_from n fs !! k = None.
Proof.
  revert n. induction fs as [|s fs IH]; intros n Hk; simpl; [done|].
  rewrite lookup_insert_ne by set_solver. apply IH. set_solver.
Qed.

Lemma number_from_lookup n fs k v :
  NoDup fs ->
  number_from n fs !! k = Some v <-> exists i, fs !! i = Some k /\ v = PInt (n + Z.of_nat i).
Proof.
  revert n. induction fs as [|s fs IH]; intros n Hnd; simpl.
  - split; [done|]. by intros (i & ? & _).
  - apply NoDup_cons in Hnd as [Hs Hnd]. rewrite lookup_insert. case_decide as Heq.
    + subst k. split.
      * intros [= <-]. exists 0. split; [done|]. f_equal. lia.
      * intros ([|i] & Hi & ->); [do 2 f_equal; simpl; lia|].
        simpl in Hi. destruct Hs. by eapply list_elem_of_lookup_2.
    + rewrite IH by done. split.
      * intros (i & Hi & ->). exists (S i). split; [done|]. f_equal. lia.
      * intros ([|i] & Hi & ->); simpl in Hi; [congruence|].
        exists i. split; [done|]. f_equal. lia.
Qed.

Lemma py_in_insert {V : Type} x s (v : V) (m : gmap string V) :
  py_in x (<[s := v]> m) = py_in x m || String.eqb x s.
Proof.
  unfold py_in. destruct (String.eqb_spec x s) as [->|Hne].
  - rewrite lookup_insert_eq, orb_true_r. by apply bool_decide_eq_true.
  - by rewrite lookup_insert_ne, orb_false_r by congruence.
Qed.

(** ** Refinement *)

(** The loop extends the table with the fresh symbols numbered from
    [next_address]. *)
Lemma find_variables_loop_spec code lbls next vars :
  find_variables_loop code lbls next vars =
  number_from next (fresh_symbols code (known vars lbls)) ∪ vars.
Proof.
  revert next vars. induction code as [|line code IH]; intros next vars; simpl.
  { by rewrite (left_id_L ∅ union). }
  unfold symbol_line, known at 1. destruct (is_ainstr line); simpl; [|apply IH].
  destruct (py_isdigit (a_symbol line)); simpl; [apply IH|].
  destruct (py_in (a_symbol line) vars || py_in (a_symbol line) lbls) eqn:Hk;
    rewrite <- negb_orb, Hk; simpl; [apply IH|].
  rewrite IH. simpl. rewrite <- insert_union_l.
  rewrite (fresh_symbols_ext _ (known _ lbls)
             (fun x => known vars lbls x || String.eqb x (a_symbol line))).
  - rewrite insert_union_r; [done|]. apply number_from_None, fresh_symbols_known.
    by rewrite String.eqb_refl, orb_true_r.
  - intros x. unfold known. rewrite py_in_insert.
    by destruct (py_in x vars), (py_in x lbls), (String.eqb x (a_symbol line)).
Qed.

(** ** Properties of the variable pass *)

Lemma find_variables_result st :
  variables (find_variables st) =
  number_from 16 (fresh_symbols (assembly_code st) (known (variables st) (labels st)))
  ∪ variables st.
Proof. apply find_variables_loop_spec. Qed.

Lemma find_variables_keeps st k v :
  variables st !! k = Some v -> variables (find_variables st) !! k = Some v.
Proof.
  intros Hk. rewrite find_variables_result, lookup_union, Hk, number_from_None; [done|].
  apply fresh_symbols_known. unfold known, py_in. by rewrite Hk.
Qed.

(** C18: no binding is ever overwritten (in particular the predefined
    symbols keep their addresses). *)
Theorem find_variables_preserves st k v :
  variables st !! k = Some v -> variables (find_variables st) !! k = Some v.
Proof. exact (find_variables_keeps st k v). Qed.

(** C4: [find_variables] extends the symbol table with exactly the
    symbols that were unknown, each once, in order of first occurrence,
    numbered from 16 (refinement of the loop by [fresh_symbols]). *)
Theorem find_variables_spec st :
  variables (find_variables st) =
  number_from 16 (fresh_symbols (assembly_code st) (known (variables st) (labels st)))
  ∪ variables st.
Proof. exact (find_variables_result st). Qed.

Lemma find_variables_new st k v :
  variables st !! k = None ->
  variables (find_variables st) !! k = Some v <->
  exists i, fresh_symbols (assembly_code st) (known (variables st) (labels st)) !! i = Some k
            /\ v = PInt (16 + Z.of_nat i).
Proof.
  intros Hk. rewrite find_variables_result, lookup_union, Hk, (right_id_L None union).
  apply number_from_lookup, fresh_symbols_NoDup.
Qed.

(** C9: a symbol that had no binding gets address [16 + i], where [i]
    is its position in the first-occurrence list of unknown symbols. *)
Theorem find_variables_numbering st k v :
  variables st !! k = None ->
  variables (find_variables st) !! k = Some v <->
  exists i, fresh_symbols (assembly_code st) (known (variables st) (labels st)) !! i = Some k
            /\ v = PInt (16 + Z.of_nat i).
Proof. exact (find_variables_new st k v). Qed.

(** C17: a newly bound symbol is not a label, and two newly bound
    symbols never share an address. *)
Theorem find_variables_fresh st k1 k2 v :
  variables st !! k1 = None -> variables st !! k2 = None ->
  variables (find_variables st) !! k1 = Some v ->
  variables (find_variables st) !! k2 = Some v ->
  labels st !! k1 = None /\ k1 = k2.
Proof.
  intros H1 H2 Hv1 Hv2.
  apply find_variables_new in Hv1 as (i & Hi & ->); [|done].
  apply find_variables_new in Hv2 as (j & Hj & Hij); [|done].
  injection Hij as Hij. assert (i = j) as <- by lia. split; [|congruence].
  apply list_elem_of_lookup_2, fresh_symbols_sound in Hi as [Hkn _].
  apply orb_false_iff in Hkn as [_ Hl]. by apply py_in_false.
Qed.

Lemma find_variables_operands st line :
  line ∈ assembly_code st -> is_ainstr line = true ->
  py_isdigit (a_symbol line) = true \/
  py_in (a_symbol line) (variables (find_variables st)) = true \/
  py_in (a_symbol line) (labels st) = true.
Proof.
  intros Hin Ha. destruct (py_isdigit (a_symbol line)) eqn:Hd; [by left|right].
  destruct (known (variables st) (labels st) (a_symbol line)) eqn:Hk.
  - apply orb_true_iff in Hk as [Hv|Hl]; [left|by right].
    apply bool_decide_eq_true in Hv as [v Hv]. apply bool_decide_eq_true.
    eexists. by apply find_variables_keeps.
  - left. apply bool_decide_eq_true. rewrite find_variables_result.
    apply lookup_union_is_Some. left.
    assert (Hf : a_symbol line ∈ fresh_symbols (assembly_code st) (known (variables st) (labels st))).
    { apply fresh_symbols_complete; [done| |done]. unfold symbol_line. by rewrite Ha, Hd. }
    apply list_elem_of_lookup in Hf as [i Hi].
    eexists. apply number_from_lookup; [apply fresh_symbols_NoDup|]. eauto.
Qed.

(** C19: after the pass every address operand is a digit string, a
    variable or a label, so resolution in [build_intermediary] never
    falls through to a non-numeric symbol. *)
Theorem find_variables_resolves st line :
  line ∈ assembly_code st -> is_ainstr line = true ->
  py_isdigit (a_symbol line) = true \/
  py_in (a_symbol line) (variables (find_variables st)) = true \/
  py_in (a_symbol line) (labels st) = true.
Proof. exact (find_variables_operands st line). Qed.

(** ** Witnesses *)

Lemma find_variables_preserves_witness :
  variables (Assembler_fields ["@R3"]) !! "R3" = Some (PStr "3") /\
  variables (find_variables (Assembler_fields ["@R3"])) !! "R3" = Some (PStr "3").
Proof.
  split; [vm_compute; reflexivity|].
  apply find_variables_preserves. vm_compute. reflexivity.
Defined.

Lemma find_variables_numbering_witness :
  variables (Assembler_fields ["@x"; "@y"; "@x"]) !! "y" = None /\
  variables (find_variables (Assembler_fields ["@x"; "@y"; "@x"])) !! "y" = Some (PInt 17).
Proof.
  assert (H : variables (Assembler_fields ["@x"; "@y"; "@x"]) !! "y" = None)
    by (vm_compute; reflexivity).
  split; [exact H|]. apply (proj2 (find_variables_numbering _ "y" (PInt 17) H)).
  exists 1. split; vm_compute; reflexivity.
Defined.

Lemma find_variables_fresh_witness :
  variables (Assembler_fields ["@x"]) !! "x" = None /\
  variables (find_variables (Assembler_fields ["@x"])) !! "x" = Some (PInt 16) /\
  labels (Assembler_fields ["@x"]) !! "x" = None.
Proof.
  assert (H1 : variables (Assembler_fields ["@x"]) !! "x" = None) by (vm_compute; reflexivity).
  assert (H2 : variables (find_variables (Assembler_fields ["@x"])) !! "x" = Some (PInt 16))
    by (vm_compute; reflexivity).
  split; [exact H1|]. split; [exact H2|].
  exact (proj1 (find_variables_fresh _ "x" "x" (PInt 16) H1 H1 H2 H2)).
Defined.

Lemma find_variables_resolves_witness :
  "@x" ∈ assembly_code (Assembler_fields ["@x"]) /\ is_ainstr "@x" = true /\
  py_in (a_symbol "@x") (variables (find_variables (Assembler_fields ["@x"]))) = true.
Proof.
  assert (Hin : "@x" ∈ assembly_code (Assembler_fields ["@x"])) by decide_vm.
  assert (Ha : is_ainstr "@x" = true) by reflexivity.
  split; [exact Hin|]. split; [exact Ha|].
  destruct (find_variables_resolves _ _ Hin Ha) as [Hd|[Hv|Hl]];
    [discriminate Hd | exact Hv | discriminate Hl].
Defined.


End Variables.
