(* ===== verification/Parser.v ===== *)
(** * Instruction Parser: [Assembler.build_intermediary]

    src/hack-assemble.py, lines 125-182.  An address line ["@x"] looks
    [x] up in [self.variables], then in [self.labels], and applies [int]
    to the result (or to [x] itself); [int] raises [ValueError] on a
    string that is not a decimal literal.  Any other line is split at
    the first ["="] and the first [";"] into one of four shapes; a fifth
    case (none of the four) would append nothing.

    [resolve_address] is lines 131-136, [parse_line] one iteration of
    the loop (it returns [None] where the loop appends nothing),
    [build_intermediary_loop] the loop and [build_intermediary] the
    method.

    Theorems: the fifth case is dead, so every line yields exactly one
    instruction (the spec's "silently skipped" lines do not exist);
    printing a compute instruction and parsing it back is the identity;
    address lines resolve to the predefined value, the label or the
    literal; the pass never raises when every numeric operand is a
    decimal literal [int] accepts (ASCII digits, at most 4300 of them);
    and the [find]/slice code of the compute case is
    equivalent to [c_fields], the reference reading by splitting at the
    first ["="] and the first [";"] ([split_first]), malformed lines
    included. *)

From Stdlib Require Import ZArith Lia Ascii.
From stdpp Require Import base list strings gmap sets.
From S2P Require Import Prelude PyStr Tables State.

Module Parser.

(** [int(v)] for a value of the symbol table or an operand string. *)
Definition py_int (v : pyval) : res Z :=
  match v with
  | PStr s => py_int_str s
  | PInt z => Ok z
  end.

(** Lines 131-136: [address = line[1:]], replaced by its variable or
    label value when there is one, then [int(address)]. *)
Definition resolve_address (vars : gmap string pyval) (lbls : gmap string Z)
    (address : string) : res Z :=
  let value :=
    match vars !! address with
    | Some v => v
    | None => match lbls !! address with
              | Some z => PInt z
              | None => PStr address
              end
    end in
  py_int value.

(** One iteration of lines 127-180. *)
Definition parse_line (vars : gmap string pyval) (lbls : gmap string Z)
    (line : string) : res (option instr) :=
  if py_startswith line "@" then
    a <- resolve_address vars lbls (py_slice line 1 None) ;; Ok (Some (A_ins a))
  else
    let dest_idx := py_find line "=" in
    let jump_idx := py_find line ";" in
    if (dest_idx =? -1)%Z && (jump_idx =? -1)%Z then
      Ok (Some (C_ins None line None))
    else if negb (dest_idx =? -1)%Z && (jump_idx =? -1)%Z then
      Ok (Some (C_ins (Some (py_slice line 0 (Some dest_idx)))
                      (py_slice line (dest_idx + 1) None) None))
    else if (dest_idx =? -1)%Z && negb (jump_idx =? -1)%Z then
      Ok (Some (C_ins None (py_slice line 0 (Some jump_idx))
                      (Some (py_slice line (jump_idx + 1) None))))
    else if negb (dest_idx =? -1)%Z && negb (jump_idx =? -1)%Z then
      Ok (Some (C_ins (Some (py_slice line 0 (Some dest_idx)))
                      (py_slice line (dest_idx + 1) (Some jump_idx))
                      (Some (py_slice line (jump_idx + 1) None))))
    else Ok None.

(** Lines 126-180: one iteration per line, in order; an exception
    aborts the loop. *)
Fixpoint build_intermediary_loop (vars : gmap string pyval) (lbls : gmap string Z)
    (code : list string) : res (list instr) :=
  match code with
  | [] => Ok []
  | line :: rest =>
      o <- parse_line vars lbls line ;;
      ins <- build_intermediary_loop vars lbls rest ;;
      Ok (option_list o ++ ins)
  end.

(** Lines 125-182. *)
Definition build_intermediary (st : Assembler) : res Assembler :=
  ic <- build_intermediary_loop (variables st) (labels st) (assembly_code st) ;;
  Ok (set_intermediary_code ic st).

(** ** Printing a compute instruction *)

(** The source text of a compute instruction: [dest=comp;jump] with the
    absent parts left out. *)
Definition print_C (dest : option string) (comp : string) (jump : option string) : string :=
  match dest with Some d => d +:+ "=" | None => "" end +:+ comp +:+
  match jump with Some j => ";" +:+ j | None => "" end.

(** A part of a compute instruction holds no separator. *)
Definition sep_free (s : string) : bool := lacks "=" s && lacks ";" s.

(** A value of the symbol table on which [int] succeeds. *)
Definition good_value (v : pyval) : bool :=
  match v with
  | PStr s => py_int_accepts s
  | PInt _ => true
  end.

(** An address operand [int] can convert after resolution. *)
Definition resolvable (vars : gmap string pyval) (lbls : gmap string Z) (s : string) : Prop :=
  is_Some (vars !! s) \/ is_Some (lbls !! s) \/ py_int_accepts s = true.

(** The reference reading of a compute line, by splitting instead of
    indexing: the dest is the text before the first ["="], the jump the
    text after the first [";"], and the comp what lies between them
    (nothing when the first [";"] comes before the first ["="]). *)
Definition c_fields (line : string) : instr :=
  match split_first "=" line, split_first ";" line with
  | None, None => C_ins None line None
  | Some (d, rest), None => C_ins (Some d) rest None
  | None, Some (c, j) => C_ins None c (Some j)
  | Some (d, rest), Some (_, j) =>
      C_ins (Some d)
        (match split_first ";" rest with
         | Some (c, _) => if lacks ";" d then c else ""
         | None => ""
         end) (Some j)
  end.

(** ** One instruction per line *)

(** The four shapes cover every line: the fall-through of line 180 is
    never reached. *)
Lemma parse_line_some vars lbls line o : parse_line vars lbls line = Ok o -> is_Some o.
Proof.
  unfold parse_line. destruct (py_startswith line "@").
  - intros H. res_inv. subst. eauto.
  - destruct (py_find line "=" =? -1)%Z, (py_find line ";" =? -1)%Z; simpl;
      intros [= <-]; eauto.
Qed.

Lemma build_intermediary_loop_Forall2 vars lbls code ic :
  build_intermediary_loop vars lbls code = Ok ic <->
  Forall2 (fun line ins => parse_line vars lbls line = Ok (Some ins)) code ic.
Proof.
  revert ic. induction code as [|line code IH]; intros ic; simpl.
  - split; [intros [= <-]; constructor | intros H; by inversion H].
  - rewrite res_bind_Ok. setoid_rewrite res_bind_Ok. split.
    + intros (o & Ho & ins & Hins & [= <-]).
      destruct (parse_line_some _ _ _ _ Ho) as [i ->]. simpl.
      constructor; [done|]. by apply IH.
    + intros H. inversion H as [|? i ? ins Hi Hins]; subst.
      exists (Some i). split; [done|]. exists ins. split; [by apply IH|done].
Qed.

(** ** Properties of the parser *)

Lemma build_intermediary_lines st st' :
  build_intermediary st = Ok st' ->
  length (intermediary_code st') = length (assembly_code st) /\
  forall i line, assembly_code st !! i = Some line ->
    exists ins, intermediary_code st' !! i = Some ins /\
                parse_line (variables st) (labels st) line = Ok (Some ins).
Proof.
  unfold build_intermediary.
  destruct (build_intermediary_loop _ _ _) as [ic|e] eqn:H; simpl; [|discriminate].
  intros [= <-]. simpl. apply build_intermediary_loop_Forall2 in H.
  split; [symmetry; by eapply Forall2_length|].
  intros i line Hi. destruct (Forall2_lookup_l _ _ _ _ _ H Hi) as (ins & ? & ?). eauto.
Qed.

(** C20: [build_intermediary] yields exactly one instruction per line,
    in order: the i-th instruction is the parse of the i-th line.  No
    line is ever silently dropped. *)
Theorem build_intermediary_one_per_line st st' :
  build_intermediary st = Ok st' ->
  length (intermediary_code st') = length (assembly_code st) /\
  forall i line, assembly_code st !! i = Some line ->
    exists ins, intermediary_code st' !! i = Some ins /\
                parse_line (variables st) (labels st) line = Ok (Some ins).
Proof. exact (build_intermediary_lines st st'). Qed.

Lemma print_C_shapes x y c :
  print_C None c None = c /\
  print_C (Some x) c None = x +:+ String "=" c /\
  print_C None c (Some y) = c +:+ String ";" y /\
  print_C (Some x) c (Some y) = x +:+ String "=" (c +:+ String ";" y).
Proof.
  unfold print_C. rewrite !str_app_nil_l, !str_app_nil_r, <- !str_app_assoc. done.
Qed.

Lemma lacks_cons ch c s : lacks ch (String c s) = negb (Ascii.eqb c ch) && lacks ch s.
Proof. reflexivity. Qed.

Ltac solve_lacks :=
  rewrite ?lacks_app, ?lacks_cons; simpl; repeat (apply andb_true_iff; split); assumption.

Ltac parse_C_finds :=
  repeat first
    [ rewrite py_find_char_at by solve_lacks
    | rewrite py_find_char_none by solve_lacks ];
  rewrite ?Z_of_nat_neq_m1; cbn [negb andb Z.eqb].

(** The four shapes of a compute line, each with the [find] results
    that select its branch of lines 143-180. *)
Lemma parse_C_none vars lbls s :
  py_startswith s "@" = false -> lacks "=" s = true -> lacks ";" s = true ->
  parse_line vars lbls s = Ok (Some (C_ins None s None)).
Proof. intros Ha H1 H2. unfold parse_line. rewrite Ha. by parse_C_finds. Qed.

Lemma parse_C_dest vars lbls x c :
  py_startswith (x +:+ String "=" c) "@" = false -> lacks "=" x = true ->
  lacks ";" (x +:+ String "=" c) = true ->
  parse_line vars lbls (x +:+ String "=" c) = Ok (Some (C_ins (Some x) c None)).
Proof.
  intros Ha H1 H2. unfold parse_line. rewrite Ha, py_find_char_at, py_find_char_none by done.
  parse_C_finds. by rewrite py_slice_before, py_slice_after.
Qed.

Lemma parse_C_jump vars lbls c y :
  py_startswith (c +:+ String ";" y) "@" = false -> lacks "=" (c +:+ String ";" y) = true ->
  lacks ";" c = true ->
  parse_line vars lbls (c +:+ String ";" y) = Ok (Some (C_ins None c (Some y))).
Proof.
  intros Ha H1 H2. unfold parse_line. rewrite Ha, py_find_char_none, py_find_char_at by done.
  parse_C_finds. by rewrite py_slice_before, py_slice_after.
Qed.

Lemma parse_C_full vars lbls x c y :
  py_startswith (x +:+ String "=" (c +:+ String ";" y)) "@" = false -> lacks "=" x = true ->
  lacks ";" (x +:+ String "=" c) = true ->
  parse_line vars lbls (x +:+ String "=" (c +:+ String ";" y)) =
  Ok (Some (C_ins (Some x) c (Some y))).
Proof.
  intros Ha H1 H2. unfold parse_line. rewrite Ha.
  assert (HL : x +:+ String "=" (c +:+ String ";" y) = (x +:+ String "=" c) +:+ String ";" y)
    by (by rewrite <- str_app_assoc).
  assert (Hlen : String.length (x +:+ String "=" c) = String.length x + S (String.length c))
    by (by rewrite str_app_length).
  assert (Hj : py_find (x +:+ String "=" (c +:+ String ";" y)) ";" =
                Z.of_nat (String.length (x +:+ String "=" c)))
    by (rewrite HL; by apply py_find_char_at).
  rewrite Hj, py_find_char_at by done. parse_C_finds.
  rewrite py_slice_before, Hlen, py_slice_between, <- Hlen, HL, py_slice_after. done.
Qed.

(** [;] before [=]: the slice [line[dest_idx + 1:jump_idx]] runs
    backwards and the comp is empty. *)
Lemma parse_C_crossed vars lbls u v r :
  py_startswith ((u +:+ String ";" v) +:+ String "=" r) "@" = false -> lacks ";" u = true ->
  lacks "=" (u +:+ String ";" v) = true ->
  parse_line vars lbls ((u +:+ String ";" v) +:+ String "=" r) =
  Ok (Some (C_ins (Some (u +:+ String ";" v)) "" (Some (v +:+ String "=" r)))).
Proof.
  intros Ha H1 H2. unfold parse_line. rewrite Ha, py_find_char_at by done.
  assert (HL : (u +:+ String ";" v) +:+ String "=" r = u +:+ String ";" (v +:+ String "=" r))
    by (by rewrite <- str_app_assoc, str_app_cons).
  assert (Hlen : String.length (u +:+ String ";" v) = String.length u + S (String.length v))
    by (by rewrite str_app_length).
  assert (Hj : py_find ((u +:+ String ";" v) +:+ String "=" r) ";" = Z.of_nat (String.length u))
    by (rewrite HL; by apply py_find_char_at).
  rewrite Hj. parse_C_finds.
  rewrite py_slice_before.
  replace (Z.of_nat (String.length (u +:+ String ";" v)) + 1)%Z
    with (Z.of_nat (String.length (u +:+ String ";" v) + 1)) by lia.
  rewrite py_slice_empty by (rewrite !str_app_length; simpl; lia).
  rewrite HL, py_slice_after. done.
Qed.

(** C10: printing a compute instruction as [dest=comp;jump] and parsing
    the line gives the instruction back, when no part holds a separator
    and the line does not start with ["@"]. *)
Theorem parse_print_C vars lbls d c j :
  py_startswith (print_C d c j) "@" = false ->
  sep_free c = true -> from_option sep_free true d = true ->
  from_option sep_free true j = true ->
  parse_line vars lbls (print_C d c j) = Ok (Some (C_ins d c j)).
Proof.
  unfold sep_free. intros Ha [Hc1 Hc2]%andb_prop Hd Hj.
  destruct d as [x|], j as [y|]; simpl in Hd, Hj;
    repeat match goal with H : _ && _ = true |- _ => apply andb_prop in H as [? ?] end;
    revert Ha; [rewrite (proj2 (proj2 (proj2 (print_C_shapes x y c))))
               |rewrite (proj1 (proj2 (print_C_shapes x "" c)))
               |rewrite (proj1 (proj2 (proj2 (print_C_shapes "" y c))))
               |rewrite (proj1 (print_C_shapes "" "" c))]; intros Ha.
  - apply parse_C_full; [done|done|solve_lacks].
  - apply parse_C_dest; [done|done|solve_lacks].
  - apply parse_C_jump; [done|solve_lacks|done].
  - by apply parse_C_none.
Qed.

(** The [find]/slice code of a compute line computes [c_fields]. *)
Lemma parse_line_C_fields vars lbls line :
  py_startswith line "@" = false -> parse_line vars lbls line = Ok (Some (c_fields line)).
Proof.
  intros Ha. unfold c_fields.
  pose proof (split_first_spec "=" line) as Se. pose proof (split_first_spec ";" line) as Sj.
  destruct (split_first "=" line) as [[d rest]|] eqn:Ee, (split_first ";" line) as [[b j]|] eqn:Ej.
  - destruct Se as [-> Hd], Sj as [Hl Hb]. destruct (lacks ";" d) eqn:Hdj.
    + pose proof (split_first_spec ";" rest) as Sr.
      destruct (split_first ";" rest) as [[c j']|] eqn:Er.
      * destruct Sr as [-> Hc].
        assert (HL : d +:+ String "=" (c +:+ String ";" j') = (d +:+ String "=" c) +:+ String ";" j')
          by (by rewrite <- str_app_assoc).
        rewrite HL, split_first_at in Ej by solve_lacks.
        injection Ej as <- <-. apply parse_C_full; [done|done|solve_lacks].
      * exfalso. assert (H : lacks ";" (d +:+ String "=" rest) = true) by solve_lacks.
        rewrite Hl, lacks_app, lacks_cons in H. simpl in H. by rewrite andb_false_r in H.
    + pose proof (split_first_spec ";" d) as Sd.
      destruct (split_first ";" d) as [[u v]|] eqn:Ed; [|congruence]. destruct Sd as [-> Hu].
      rewrite (split_first_app_some _ _ _ _ _ Ed) in Ej. injection Ej as <- <-.
      destruct (split_first ";" rest) as [[]|]; by apply parse_C_crossed.
  - destruct Se as [-> Hd]. by apply parse_C_dest.
  - destruct Sj as [-> Hb]. by apply parse_C_jump.
  - by apply parse_C_none.
Qed.

(** C12: on every line that does not start with ["@"], the [find]- and
    slice-based code of lines 139-180 computes the split-based reference
    [c_fields]: dest before the first ["="], jump after the first [";"],
    comp in between, and an empty comp when [";"] comes first. *)
Theorem parse_line_C_reference vars lbls line :
  py_startswith line "@" = false -> parse_line vars lbls line = Ok (Some (c_fields line)).
Proof. exact (parse_line_C_fields vars lbls line). Qed.

Lemma resolve_address_ok vars lbls s :
  (forall k v, vars !! k = Some v -> good_value v = true) ->
  resolvable vars lbls s -> exists a, resolve_address vars lbls s = Ok a.
Proof.
  intros Hgood Hs. unfold resolve_address, py_int.
  destruct (vars !! s) as [v|] eqn:Hv.
  - specialize (Hgood _ _ Hv). destruct v as [d|z]; simpl in Hgood; [|eauto].
    unfold py_int_str. rewrite Hgood. eauto.
  - destruct (lbls !! s) as [z|] eqn:Hl; [eauto|].
    destruct Hs as [[? ?]|[[? ?]|Hd]]; [congruence|congruence|].
    unfold py_int_str. rewrite Hd. eauto.
Qed.

Lemma build_intermediary_succeeds st :
  (forall k v, variables st !! k = Some v -> good_value v = true) ->
  (forall line, line ∈ assembly_code st -> py_startswith line "@" = true ->
     resolvable (variables st) (labels st) (py_slice line 1 None)) ->
  exists st', build_intermediary st = Ok st'.
Proof.
  intros Hgood Hres. unfold build_intermediary.
  destruct st as [code ic mc lbls vars]; simpl in *.
  assert (exists ic', build_intermediary_loop vars lbls code = Ok ic') as [ic' ->]; [|by eexists].
  induction code as [|line code IH]; simpl; [by eexists|].
  destruct IH as [ins Hins]; [intros; apply Hres; set_solver|].
  assert (exists i, parse_line vars lbls line = Ok (Some i)) as [i ->].
  { unfold parse_line. destruct (py_startswith line "@") eqn:Ha.
    - destruct (resolve_address_ok vars lbls (py_slice line 1 None)) as [a ->];
        [done | apply Hres; set_solver |]. simpl. eauto.
    - destruct (py_find line "=" =? -1)%Z, (py_find line ";" =? -1)%Z; simpl; eauto. }
  simpl. rewrite Hins. simpl. eauto.
Qed.

(** C21: the parser never raises when every value of the table is a
    decimal string or an int, and every address operand is bound or is a
    decimal literal. *)
Theorem build_intermediary_total st :
  (forall k v, variables st !! k = Some v -> good_value v = true) ->
  (forall line, line ∈ assembly_code st -> py_startswith line "@" = true ->
     resolvable (variables st) (labels st) (py_slice line 1 None)) ->
  exists st', build_intermediary st = Ok st'.
Proof. exact (build_intermediary_succeeds st). Qed.

(** ** Witnesses *)

Lemma build_intermediary_one_per_line_witness :
  exists st', build_intermediary (Assembler_fields ["@5"; "D=A"]) = Ok st' /\
    length (intermediary_code st') = length (assembly_code (Assembler_fields ["@5"; "D=A"])).
Proof.
  eexists. split; [vm_compute; reflexivity|].
  apply (build_intermediary_one_per_line (Assembler_fields ["@5"; "D=A"])).
  vm_compute. reflexivity.
Defined.

Lemma parse_print_C_witness :
  print_C (Some "AM") "M+1" (Some "JGT") = "AM=M+1;JGT" /\
  parse_line ∅ ∅ (print_C (Some "AM") "M+1" (Some "JGT")) =
  Ok (Some (C_ins (Some "AM") "M+1" (Some "JGT"))).
Proof. split; [reflexivity | apply parse_print_C; reflexivity]. Defined.

Lemma parse_line_C_reference_witness :
  py_startswith "0;JMP=D" "@" = false /\
  parse_line ∅ ∅ "0;JMP=D" = Ok (Some (c_fields "0;JMP=D")).
Proof. split; [reflexivity|]. apply parse_line_C_reference. reflexivity. Defined.

Lemma build_intermediary_total_witness :
  exists st', build_intermediary (set_variables ∅ (Assembler_fields ["@7"])) = Ok st'.
Proof.
  apply build_intermediary_total.
  - intros k v Hv. vm_compute in Hv. discriminate.
  - intros line Hin _. apply list_elem_of_singleton in Hin as ->.
    right; right. reflexivity.
Defined.


End Parser.
