(* ===== verification/Encoder.v ===== *)
(** * Encoder: [Assembler.assemble] and [Assembler.get_binary_string]

    src/hack-assemble.py, lines 188-214.  An address instruction becomes
    ["0"] followed by [get_binary_string(address, 15)], which is
    [format(i, "#017b")[2:]]: the binary digits of [i] zero-padded to 15
    characters, and not truncated when [i] needs more.  A compute
    instruction becomes ["111"] followed by the codes of its comp, dest
    and jump fields (line 201), looked up in the order dest, comp, jump
    (lines 197-199); a missing key raises [KeyError].

    [bits_value] is the reference decoder of a bit string (most
    significant bit first) and [decode_C] the decoder of a compute
    word.  They are specifications, not code of the program.

    Theorems: [get_binary_string] round-trips on [0, 2^n) and keeps
    every bit beyond (so an operand of [2^15] or more yields a line
    longer than 16 characters); a compute word has 16 bits and decodes
    to its fields (against the [FieldTable] interface of the tables);
    the error raised names the first missing key in the order dest,
    comp, jump; [assemble] succeeds exactly when every field is known.
    That an address of [2^15] or more yields a longer word, against the
    comment of line 208 ("converts integer to n-bit binary string"), is
    recorded as a finding, with [assemble_A_overflow] as its proof. *)

From Stdlib Require Import ZArith Lia Ascii.
From stdpp Require Import base list strings gmap sets.
From S2P Require Import Prelude PyStr Tables State.

Module Encoder.

(** Lines 211-214: [fmt = "#0" + str(n + 2) + "b"], [s[2:]]. *)
Definition get_binary_string (i : Z) (n : nat) : string :=
  py_slice (format_bin i (n + 2)) 2 None.

(** One iteration of lines 190-203. *)
Definition assemble_ins (ins : instr) : res string :=
  match ins with
  | A_ins address => Ok ("0" +:+ get_binary_string address 15)
  | C_ins d c j =>
      dest <- table_get dest_table d ;;
      comp <- table_get comp_table (Some c) ;;
      jump <- table_get jump_table j ;;
      Ok ("111" +:+ comp +:+ dest +:+ jump)
  end.

(** Lines 188-205. *)
Definition assemble (st : Assembler) : res Assembler :=
  mc <- res_map assemble_ins (intermediary_code st) ;;
  Ok (set_machine_code mc st).

(** ** Reference decoders *)

Fixpoint bits_value (acc : Z) (s : string) : Z :=
  match s with
  | "" => acc
  | String c s' => bits_value (2 * acc + (if ascii_dec c "1" then 1 else 0)) s'
  end.

Definition decode_C (w : string) : option (option string * string * option string) :=
  match first_key comp_entries (String.substring 3 7 w),
        first_key dest_entries (String.substring 10 3 w),
        first_key jump_entries (String.substring 13 3 w) with
  | Some (Some c), Some d, Some j => Some (d, c, j)
  | _, _, _ => None
  end.

(** The fields of a compute instruction that the tables know. *)
Definition known_fields (ins : instr) : Prop :=
  match ins with
  | A_ins _ => True
  | C_ins d c j => d ∈ dest_entries.*1 /\ Some c ∈ comp_entries.*1 /\ j ∈ jump_entries.*1
  end.

(** ** Binary digits *)

Lemma bits_value_app acc s t : bits_value acc (s +:+ t) = bits_value (bits_value acc s) t.
Proof. revert acc. induction s as [|c s IH]; intros acc; [done|]. apply IH. Qed.

Lemma bits_value_zeros acc k : bits_value acc (zeros k) = (acc * 2 ^ Z.of_nat k)%Z.
Proof.
  revert acc. induction k as [|k IH]; intros acc; simpl; [lia|].
  rewrite IH. rewrite Nat2Z.inj_succ, Z.pow_succ_r by lia. lia.
Qed.

Lemma zeros_length k : String.length (zeros k) = k.
Proof. induction k; simpl; auto. Qed.

Lemma zeros_bits k : str_forall is_bit (zeros k) = true.
Proof. induction k; simpl; auto. Qed.

(** The digits of [p] denote [p], are bits, and their number is the
    bit size of [p]. *)
Lemma pos_bin_spec p :
  bits_value 0 (pos_bin p) = Zpos p /\ str_forall is_bit (pos_bin p) = true /\
  (2 ^ Z.of_nat (String.length (pos_bin p)) <= 2 * Zpos p < 2 * 2 ^ Z.of_nat (String.length (pos_bin p)))%Z.
Proof.
  induction p as [p IH|p IH|]; simpl; [| |split; [done|split; [done|simpl; lia]]];
    destruct IH as (Hv & Hb & Hlo & Hhi);
    rewrite bits_value_app, Hv, str_forall_app, Hb, str_app_length; simpl;
    (split; [lia|split; [done|]]);
    rewrite Nat.add_1_r, Nat2Z.inj_succ, Z.pow_succ_r by lia; lia.
Qed.

Lemma bin_digits_spec i :
  (0 <= i)%Z ->
  bits_value 0 (bin_digits i) = i /\ str_forall is_bit (bin_digits i) = true /\
  (i < 2 ^ Z.of_nat (String.length (bin_digits i)))%Z /\
  (1 <= String.length (bin_digits i))%nat /\
  (0 < i -> 2 ^ Z.of_nat (String.length (bin_digits i)) <= 2 * i)%Z.
Proof.
  destruct i as [|p|p]; intros Hi; [cbn; repeat split; try reflexivity; lia| |lia].
  destruct (pos_bin_spec p) as (Hv & Hb & Hlo & Hhi). unfold bin_digits.
  split; [done|]. split; [done|]. split; [lia|]. split; [|lia].
  destruct (String.length (pos_bin p)); [simpl in Hhi; lia|lia].
Qed.

(** For a non-negative [i], [format(i, "#0Nb")[2:]] is the digits
    padded with zeros. *)
Lemma get_binary_string_nonneg i n :
  (0 <= i)%Z ->
  get_binary_string i n = zeros (n - String.length (bin_digits i)) +:+ bin_digits i.
Proof.
  intros Hi. unfold get_binary_string, format_bin.
  destruct (i <? 0)%Z eqn:E; [lia|]. rewrite str_app_nil_l.
  change (String.length "0b") with 2. replace (n + 2 - 2) with n by lia.
  apply (py_slice_drop "0b").
Qed.

Lemma bin_digits_length_le i n :
  (0 < n)%nat -> (0 <= i < 2 ^ Z.of_nat n)%Z -> String.length (bin_digits i) <= n.
Proof.
  intros Hn Hi. destruct (bin_digits_spec i) as (_ & _ & _ & H1 & Hlo); [lia|].
  destruct (Z.eq_dec i 0%Z) as [->|Hne]; [simpl; lia|].
  specialize (Hlo ltac:(lia)).
  assert (2 ^ Z.of_nat (String.length (bin_digits i)) < 2 ^ Z.of_nat (S n))%Z as Hlt.
  { rewrite Nat2Z.inj_succ, Z.pow_succ_r by lia. lia. }
  apply Z.pow_lt_mono_r_iff in Hlt; lia.
Qed.

Lemma get_binary_string_spec i n :
  (0 <= i)%Z ->
  String.length (get_binary_string i n) = Nat.max n (String.length (bin_digits i)) /\
  str_forall is_bit (get_binary_string i n) = true /\
  bits_value 0 (get_binary_string i n) = i.
Proof.
  intros Hi. destruct (bin_digits_spec i Hi) as (Hv & Hb & _).
  rewrite get_binary_string_nonneg by done.
  rewrite str_app_length, zeros_length, str_forall_app, zeros_bits, Hb, bits_value_app,
    bits_value_zeros, Z.mul_0_l, Hv.
  split; [lia|done].
Qed.







(** ** Properties of the encoder *)

Lemma assemble_A_word a :
  (0 <= a < 2 ^ 15)%Z ->
  exists w, assemble_ins (A_ins a) = Ok w /\ String.length w = 16 /\
            str_forall is_bit w = true /\ String.get 0 w = Some "0"%char /\
            bits_value 0 w = a.
Proof.
  intros Ha. eexists. split; [reflexivity|].
  destruct (get_binary_string_spec a 15) as (Hl & Hb & Hv); [lia|].
  pose proof (bin_digits_length_le a 15 ltac:(lia) Ha) as Hd.
  rewrite str_app_cons, str_app_nil_l. simpl. rewrite Hl, Hb.
  split; [lia|]. do 2 (split; [done|]). exact Hv.
Qed.

(** C5: an address in [0, 2^15) is encoded as a 16-character word of
    0/1 whose first bit is 0 and whose binary value is the address. *)
Theorem assemble_A_roundtrip a :
  (0 <= a < 2 ^ 15)%Z ->
  exists w, assemble_ins (A_ins a) = Ok w /\ String.length w = 16 /\
            str_forall is_bit w = true /\ String.get 0 w = Some "0"%char /\
            bits_value 0 w = a.
Proof. exact (assemble_A_word a). Qed.

(** An address of [2^15] or more is not rejected: its word keeps
    every bit and is longer than 16 characters. *)
Theorem assemble_A_overflow a :
  (2 ^ 15 <= a)%Z ->
  exists w, assemble_ins (A_ins a) = Ok w /\ 16 < String.length w /\ bits_value 0 w = a.
Proof.
  intros Ha. eexists. split; [reflexivity|].
  destruct (get_binary_string_spec a 15) as (Hl & _ & Hv); [lia|].
  destruct (bin_digits_spec a) as (_ & _ & Hhi & _); [lia|].
  assert (15 < String.length (bin_digits a)).
  { assert (2 ^ Z.of_nat 15 < 2 ^ Z.of_nat (String.length (bin_digits a)))%Z as Hlt by (simpl; lia).
    apply Z.pow_lt_mono_r_iff in Hlt; lia. }
  rewrite str_app_cons, str_app_nil_l. simpl. rewrite Hl. split; [lia|exact Hv].
Qed.

Lemma assemble_C_word d c j w :
  assemble_ins (C_ins d c j) = Ok w ->
  String.length w = 16 /\ str_forall is_bit w = true /\
  String.substring 0 3 w = "111" /\ decode_C w = Some (d, c, j).
Proof.
  unfold assemble_ins. intros H. res_inv. rename x into dv, x0 into cv, x1 into jv. subst w.
  destruct (table_get_code dest_entries 3 (fun _ => true) d dv) as [Hdl Hdb]; [done|].
  destruct (table_get_code comp_entries 7 _ (Some c) cv) as [Hcl Hcb]; [done|].
  destruct (table_get_code jump_entries 3 (fun _ => true) j jv) as [Hjl Hjb]; [done|].
  rewrite !str_app_length, !str_forall_app, Hdl, Hcl, Hjl, Hdb, Hcb, Hjb.
  split; [done|split; [done|split]].
  { exact (substring_app_l "111" (cv +:+ dv +:+ jv)). }
  unfold decode_C.
  rewrite (substring_at "111" cv) by done.
  rewrite (str_app_assoc "111"), (substring_at ("111" +:+ cv) dv)
    by (by rewrite ?str_app_length, ?Hcl).
  rewrite <- (str_app_nil_r jv), (str_app_assoc ("111" +:+ cv)), (substring_at _ jv)
    by (by rewrite ?str_app_length, ?Hcl, ?Hdl).
  rewrite (table_get_decode comp_entries 7 _ (Some c) cv),
          (table_get_decode dest_entries 3 _ d dv), (table_get_decode jump_entries 3 _ j jv);
    done.
Qed.

(** C6: a compute word has 16 bits, starts with ["111"], and decodes
    to the fields it was built from. *)
Theorem assemble_C_roundtrip d c j w :
  assemble_ins (C_ins d c j) = Ok w ->
  String.length w = 16 /\ str_forall is_bit w = true /\
  String.substring 0 3 w = "111" /\ decode_C w = Some (d, c, j).
Proof. exact (assemble_C_word d c j w). Qed.

Lemma assemble_ins_ok ins : (exists w, assemble_ins ins = Ok w) <-> known_fields ins.
Proof.
  destruct ins as [a|d c j]; [split; [done|by eexists]|]. cbn [known_fields]. split.
  - intros [w H]. cbn [assemble_ins] in H. res_inv.
    split; [|split]; eapply table_get_key; eassumption.
  - intros (Hd & Hc & Hj). cbn [assemble_ins]. unfold dest_table, comp_table, jump_table.
    destruct (proj2 (table_get_defined dest_entries 3 _ d) Hd) as [dv ->].
    destruct (proj2 (table_get_defined comp_entries 7 _ (Some c)) Hc) as [cv ->].
    destruct (proj2 (table_get_defined jump_entries 3 _ j) Hj) as [jv ->].
    by eexists.
Qed.

Lemma assemble_C_raise d c j e :
  assemble_ins (C_ins d c j) = Raise e ->
  ((d ∉ dest_entries.*1) /\ e = KeyError d) \/
  (d ∈ dest_entries.*1 /\ (Some c ∉ comp_entries.*1) /\ e = KeyError (Some c)) \/
  (d ∈ dest_entries.*1 /\ Some c ∈ comp_entries.*1 /\ (j ∉ jump_entries.*1) /\ e = KeyError j).
Proof.
  unfold assemble_ins.
  destruct (table_get dest_table d) as [dv|e1] eqn:Hd; cbn [res_bind];
    [|intros [= <-]; apply table_get_Raise in Hd as [-> ?]; by left].
  apply table_get_key in Hd.
  destruct (table_get comp_table (Some c)) as [cv|e2] eqn:Hc; cbn [res_bind];
    [|intros [= <-]; apply table_get_Raise in Hc as [-> ?]; right; by left].
  apply table_get_key in Hc.
  destruct (table_get jump_table j) as [jv|e3] eqn:Hj; cbn [res_bind]; [discriminate|].
  intros [= <-]. apply table_get_Raise in Hj as [-> ?]. by right; right.
Qed.

(** C24: an unknown mnemonic raises [KeyError] naming the first missing
    key in the order the code looks them up: dest, then comp, then
    jump. *)
Theorem assemble_C_error d c j e :
  assemble_ins (C_ins d c j) = Raise e ->
  ((d ∉ dest_entries.*1) /\ e = KeyError d) \/
  (d ∈ dest_entries.*1 /\ (Some c ∉ comp_entries.*1) /\ e = KeyError (Some c)) \/
  (d ∈ dest_entries.*1 /\ Some c ∈ comp_entries.*1 /\ (j ∉ jump_entries.*1) /\ e = KeyError j).
Proof. exact (assemble_C_raise d c j e). Qed.

(** C23: [assemble] succeeds exactly when every compute instruction
    has a known dest, comp and jump. *)
Theorem assemble_ok_iff st :
  (exists st', assemble st = Ok st') <-> Forall known_fields (intermediary_code st).
Proof.
  unfold assemble. rewrite Forall_forall. split.
  - intros [st' H] ins Hin.
    destruct (res_map assemble_ins _) as [mc|e] eqn:Hmc; cbn [res_bind] in H; [|discriminate].
    destruct (res_map_elem_l _ _ _ ins Hmc) as (w & Hw & _); [done|].
    apply assemble_ins_ok. eauto.
  - intros H. destruct (res_map_total assemble_ins (intermediary_code st)) as [mc ->].
    + intros ins Hin. by apply assemble_ins_ok, H.
    + cbn [res_bind]. eauto.
Qed.



(** C25: when every address is below [2^15], [assemble] emits one word
    per instruction, each of 16 characters of 0/1. *)
Theorem assemble_output st st' :
  assemble st = Ok st' ->
  (forall a, A_ins a ∈ intermediary_code st -> (0 <= a < 2 ^ 15)%Z) ->
  length (machine_code st') = length (intermediary_code st) /\
  forall w, w ∈ machine_code st' -> String.length w = 16 /\ str_forall is_bit w = true.
Proof.
  unfold assemble. intros Hst Ha.
  destruct (res_map assemble_ins _) as [mc|e] eqn:H; cbn [res_bind] in Hst; [|discriminate].
  injection Hst as <-. cbn [machine_code set_machine_code].
  split; [by eapply res_map_length|]. intros w Hw.
  destruct (res_map_elem_r _ _ _ w H Hw) as ([a|d c j] & Hin & Hins).
  - destruct (assemble_A_word a (Ha a Hin)) as (w' & Hw' & ? & ? & _).
    rewrite Hins in Hw'. by injection Hw' as ->.
  - by destruct (assemble_C_word d c j w Hins) as (? & ? & _).
Qed.

(** ** Witnesses *)

Lemma assemble_A_roundtrip_witness :
  (0 <= 5 < 2 ^ 15)%Z /\ assemble_ins (A_ins 5) = Ok "0000000000000101" /\
  exists w, assemble_ins (A_ins 5) = Ok w /\ String.length w = 16 /\
            str_forall is_bit w = true /\ String.get 0 w = Some "0"%char /\ bits_value 0 w = 5%Z.
Proof.
  split; [lia|]. split; [vm_compute; reflexivity|]. apply assemble_A_roundtrip. lia.
Defined.


Lemma assemble_C_roundtrip_witness :
  assemble_ins (C_ins (Some "D") "D+1" None) = Ok "1110011111010000" /\
  decode_C "1110011111010000" = Some (Some "D", "D+1", None).
Proof.
  assert (H : assemble_ins (C_ins (Some "D") "D+1" None) = Ok "1110011111010000")
    by (vm_compute; reflexivity).
  split; [exact H|]. exact (proj2 (proj2 (proj2 (assemble_C_roundtrip _ _ _ _ H)))).
Defined.

Lemma assemble_C_error_witness :
  assemble_ins (C_ins (Some "X") "D" None) = Raise (KeyError (Some "X")) /\
  (((Some "X" ∉ dest_entries.*1) /\ KeyError (Some "X") = KeyError (Some "X")) \/
   (Some "X" ∈ dest_entries.*1 /\ (Some "D" ∉ comp_entries.*1) /\
    KeyError (Some "X") = KeyError (Some "D")) \/
   (Some "X" ∈ dest_entries.*1 /\ Some "D" ∈ comp_entries.*1 /\ (None ∉ jump_entries.*1) /\
    KeyError (Some "X") = KeyError None)).
Proof.
  assert (H : assemble_ins (C_ins (Some "X") "D" None) = Raise (KeyError (Some "X")))
    by (vm_compute; reflexivity).
  split; [exact H | exact (assemble_C_error _ _ _ _ H)].
Defined.


Lemma assemble_output_witness :
  exists st', assemble (set_intermediary_code [A_ins 5; C_ins None "0" (Some "JMP")]
                          (Assembler_fields [])) = Ok st' /\
    length (machine_code st') = 2.
Proof.
  eexists. split; [vm_compute; reflexivity|].
  apply (assemble_output (set_intermediary_code [A_ins 5; C_ins None "0" (Some "JMP")]
                            (Assembler_fields []))); [vm_compute; reflexivity|].
  intros a Ha. apply elem_of_cons in Ha as [[= ->]|Ha]; [lia|].
  apply list_elem_of_singleton in Ha. discriminate.
Defined.


End Encoder.
