(* ===== verification/Pipeline.v ===== *)
(** * The whole assembler: [Assembler.__init__], [get_machine_code], main

    src/hack-assemble.py, lines 43-55 (the constructor runs the five
    stages in order), 220-221 (the output text) and 223-224 (read
    standard input, print the result).  [Assembler_init] composes the
    stage models exactly as [__init__] calls them; the first exception
    aborts the run, so no partial output exists.  [readlines] models
    [sys.stdin.readlines()] as CPython runs it on a POSIX system (lines
    end at ["\n"], nothing is translated) and [print] appends a
    newline; both are library behaviour, written from CPython's
    documentation and sources.

    Theorems: [readlines] splits the input into lines that concatenate
    back to it; one output line per instruction line; an address operand
    resolves to its label (forward references included), to its
    predefined value, or to its variable number.  Examples evaluate the
    spec's programs and the deviations recorded as findings: a label
    named like a predefined symbol is shadowed, an out-of-range literal
    yields a long line, a literal of 4301 digits or a superscript
    digit operand raises [ValueError], an unclosed label loses its last character, a
    malformed line is not dropped, and [/ /] starts a comment. *)

From Stdlib Require Import ZArith Lia Ascii.
From stdpp Require Import base list strings gmap sets.
From S2P Require Import Prelude PyStr Tables State Normalizer Labels Variables Parser Encoder.

Module Pipeline.

Definition newline : string := String "010"%char "".

(** Lines 43-55. *)
Definition Assembler_init (code : list string) : res Assembler :=
  let st := Normalizer.remove_unnecessary (Assembler_fields code) in
  st <- Labels.find_labels st ;;
  let st := Variables.find_variables st in
  st <- Parser.build_intermediary st ;;
  Encoder.assemble st.

(** Lines 220-221: ["\n".join(self.machine_code)]. *)
Definition get_machine_code (st : Assembler) : string := py_join newline (machine_code st).

(** The lines of a text from [cur] on, each with its ["\n"]; the last
    one keeps no terminator when the text does not end with one. *)
Fixpoint split_lines (cur : string) (s : string) : list string :=
  match s with
  | "" => if String.eqb cur "" then [] else [cur]
  | String c s' =>
      if Ascii.eqb c "010"%char then (cur +:+ newline) :: split_lines "" s'
      else split_lines (cur +:+ String c "") s'
  end.

(** [sys.stdin.readlines()] on a POSIX system: CPython opens standard
    input with [newline="\n"], so lines end at ["\n"] only and no
    ["\r"] is translated (a ["\r"] stays in its line, where
    [str.split] later removes it as whitespace). *)
Definition readlines (input : string) : list string := split_lines "" input.

(** Lines 223-224: the text printed on standard output, or the
    exception that ends the run before anything is printed. *)
Definition main (input : string) : res string :=
  asm <- Assembler_init (readlines input) ;;
  Ok (get_machine_code asm +:+ newline).


(** ** The run, stage by stage *)

(** The label-free program, the label table, and the state after
    [find_labels]. *)
Definition program (code : list string) : list string :=
  Labels.instructions (Normalizer.remove_unnecessary_loop code).

Definition label_table (code : list string) : gmap string Z :=
  (Labels.find_labels_loop (Normalizer.remove_unnecessary_loop code) 0 0 ∅ []).1.

Definition after_labels (code : list string) : Assembler :=
  set_assembly_code (program code)
    (set_labels (label_table code) (Normalizer.remove_unnecessary (Assembler_fields code))).

Definition symbol_table (code : list string) : gmap string pyval :=
  variables (Variables.find_variables (after_labels code)).

Lemma Assembler_init_eq code :
  Assembler_init code =
  (st <- Parser.build_intermediary (Variables.find_variables (after_labels code)) ;;
   Encoder.assemble st).
Proof. unfold Assembler_init. by rewrite Labels.find_labels_result. Qed.

(** The i-th output word is the encoding of the parse of the i-th line
    of the label-free program. *)
Lemma Assembler_init_lookup code st i line :
  Assembler_init code = Ok st -> program code !! i = Some line ->
  exists ins w, Parser.parse_line (symbol_table code) (label_table code) line = Ok (Some ins) /\
                Encoder.assemble_ins ins = Ok w /\ machine_code st !! i = Some w.
Proof.
  rewrite Assembler_init_eq. intros H Hi.
  destruct (Parser.build_intermediary _) as [st4|e] eqn:Hb; cbn [res_bind] in H; [|discriminate].
  destruct (Parser.build_intermediary_lines _ _ Hb) as [_ Hpt].
  destruct (Hpt i line Hi) as (ins & Hins & Hp).
  unfold Encoder.assemble in H.
  destruct (res_map _ _) as [mc|e] eqn:Hm; cbn [res_bind] in H; [|discriminate].
  injection H as <-. apply res_map_Ok in Hm.
  destruct (Forall2_lookup_l _ _ _ _ _ Hm Hins) as (w & Hw & Hf).
  exists ins, w. done.
Qed.

Lemma parse_address vars lbls x :
  Parser.parse_line vars lbls ("@" +:+ x) =
  (a <- Parser.resolve_address vars lbls x ;; Ok (Some (A_ins a))).
Proof.
  unfold Parser.parse_line.
  replace (py_slice ("@" +:+ x) 1 None) with x by exact (eq_sym (py_slice_drop "@" x)).
  assert (py_startswith ("@" +:+ x) "@" = true) as ->; [|done].
  unfold py_startswith. rewrite str_app_cons, str_app_nil_l, prefix_cons.
  destruct ascii_dec; [apply prefix_nil|done].
Qed.

(** ** Properties of the whole run *)

(** C22: one output word per instruction line of the normalized,
    label-free program. *)
Theorem Assembler_init_length code st :
  Assembler_init code = Ok st -> length (machine_code st) = length (program code).
Proof.
  rewrite Assembler_init_eq. intros H.
  destruct (Parser.build_intermediary _) as [st4|e] eqn:Hb; cbn [res_bind] in H; [|discriminate].
  destruct (Parser.build_intermediary_lines _ _ Hb) as [Hl _].
  unfold Encoder.assemble in H.
  destruct (res_map _ _) as [mc|e] eqn:Hm; cbn [res_bind] in H; [|discriminate].
  injection H as <-. cbn [machine_code set_machine_code].
  rewrite (res_map_length _ _ _ Hm), Hl. done.
Qed.


Lemma after_labels_find code :
  Labels.find_labels (Normalizer.remove_unnecessary (Assembler_fields code)) = Ok (after_labels code).
Proof. apply Labels.find_labels_result. Qed.

Lemma symbol_table_spec code :
  symbol_table code =
  Variables.number_from 16
    (Variables.fresh_symbols (program code) (Variables.known predefined_symbols (label_table code)))
  ∪ predefined_symbols.
Proof. apply Variables.find_variables_result. Qed.

(** Every value of [predefined_symbols] is a decimal string. *)
Lemma predefined_good k v : predefined_symbols !! k = Some v -> Parser.good_value v = true.
Proof.
  intros H%elem_of_list_to_map_2.
  assert (Hall : forallb (fun kv => Parser.good_value kv.2) predefined_entries = true)
    by reflexivity.
  rewrite forallb_forall in Hall. apply (Hall (k, v)). by apply list_elem_of_In.
Qed.

(** An address line is encoded as the resolution of its operand. *)
Lemma address_line_output code st i x a :
  Assembler_init code = Ok st -> program code !! i = Some ("@" +:+ x) ->
  Parser.resolve_address (symbol_table code) (label_table code) x = Ok a ->
  machine_code st !! i = Some ("0" +:+ Encoder.get_binary_string a 15).
Proof.
  intros H Hi Hr. destruct (Assembler_init_lookup _ _ _ _ H Hi) as (ins & w & Hp & Hw & ->).
  rewrite parse_address, Hr in Hp. cbn [res_bind] in Hp. injection Hp as <-.
  by injection Hw as <-.
Qed.

(** C3: a reference to a label, before or after its declaration, is
    encoded as the number of instructions before the label's last
    declaration, provided the label is not a predefined name. *)
Theorem label_reference code st pre decl post i :
  Assembler_init code = Ok st ->
  Normalizer.remove_unnecessary_loop code = pre ++ decl :: post ->
  Labels.is_label decl = true ->
  (forall l, l ∈ post -> Labels.is_label l = true -> Labels.label_name l <> Labels.label_name decl) ->
  predefined_symbols !! Labels.label_name decl = None ->
  program code !! i = Some ("@" +:+ Labels.label_name decl) ->
  machine_code st !! i =
  Some ("0" +:+ Encoder.get_binary_string (Z.of_nat (length (Labels.instructions pre))) 15).
Proof.
  intros H Hcode Hl Hpost Hpre Hi. eapply address_line_output; [exact H|exact Hi|].
  destruct (Labels.find_labels_label _ _ pre decl post (after_labels_find code))
    as [Hlab _]; [exact Hcode|done|done|].
  cbn [labels after_labels set_assembly_code set_labels] in Hlab.
  unfold Parser.resolve_address. rewrite Hlab.
  assert (symbol_table code !! Labels.label_name decl = None) as ->; [|done].
  rewrite symbol_table_spec, lookup_union, Hpre, Variables.number_from_None; [done|].
  apply Variables.fresh_symbols_known. unfold Variables.known, py_in.
  rewrite Hlab. apply orb_true_r.
Qed.

(** C15: a predefined symbol is encoded as its predefined address,
    whatever the program declares ([@R3] is always address 3). *)
Theorem predefined_reference code st k d i :
  Assembler_init code = Ok st ->
  predefined_symbols !! k = Some (PStr d) ->
  program code !! i = Some ("@" +:+ k) ->
  machine_code st !! i = Some ("0" +:+ Encoder.get_binary_string (dec_acc 0 d) 15).
Proof.
  intros H Hk Hi. eapply address_line_output; [exact H|exact Hi|].
  unfold Parser.resolve_address, symbol_table.
  rewrite (Variables.find_variables_keeps (after_labels code) k (PStr d) Hk).
  cbn [Parser.py_int]. unfold py_int_str.
  pose proof (predefined_good k (PStr d) Hk) as Hd. cbn [Parser.good_value] in Hd.
  by rewrite Hd.
Qed.

(** C16: a variable is encoded as 16 plus its position in the
    first-occurrence list of the program's unknown symbols. *)
Theorem variable_reference code st x i idx :
  Assembler_init code = Ok st ->
  program code !! i = Some ("@" +:+ x) ->
  Variables.fresh_symbols (program code) (Variables.known predefined_symbols (label_table code)) !! idx
    = Some x ->
  machine_code st !! i = Some ("0" +:+ Encoder.get_binary_string (16 + Z.of_nat idx) 15).
Proof.
  intros H Hi Hx. eapply address_line_output; [exact H|exact Hi|].
  pose proof (list_elem_of_lookup_2 _ _ _ Hx) as Hin.
  apply Variables.fresh_symbols_sound in Hin as [Hkn _].
  apply orb_false_iff in Hkn as [Hv Hl]. apply py_in_false in Hv, Hl.
  unfold Parser.resolve_address.
  assert (symbol_table code !! x = Some (PInt (16 + Z.of_nat idx))) as ->; [|done].
  apply (Variables.find_variables_new (after_labels code)); [done|]. eauto.
Qed.



(** ** Reading standard input *)




(** ** The examples of the spec *)

(** The two example programs of the spec assemble to the words it
    gives: [(START) / @START / 0;JMP] binds the label to 0, and the [Add]
    program, with comments and blank lines, yields its six words. *)
Example main_spec_examples :
  main (py_join newline ["(START)"; "@START"; "0;JMP"]) =
  Ok (py_join newline ["0000000000000000"; "1110101010000111"] +:+ newline) /\
  main (py_join newline ["// Computes R0 = 2 + 3"; "@2"; "D=A"; ""; "@3";
                         "D = D + A   // add"; "@0"; "M=D"]) =
  Ok (py_join newline ["0000000000000010"; "1110110000010000"; "0000000000000011";
                       "1110000010010000"; "0000000000000000"; "1110001100001000"]
      +:+ newline).
Proof. split; vm_compute; reflexivity. Qed.

(** ** Where the code departs from the spec *)

(** A label named like a predefined symbol is shadowed: [@KBD]
    after [(KBD)] at address 1 is encoded as 24576, because lines 132-135
    look in [self.variables] before [self.labels]. *)
Example main_label_shadowed :
  main (py_join newline ["@0"; "(KBD)"; "@KBD"]) =
  Ok (py_join newline ["0000000000000000"; "0110000000000000"] +:+ newline).
Proof. vm_compute. reflexivity. Qed.

(** A literal above 32767 is not rejected: [@99999] yields an
    18-character line. *)
Example main_literal_overflow :
  main "@99999" = Ok ("011000011010011111" +:+ newline).
Proof. vm_compute. reflexivity. Qed.

(** An operand made of a superscript digit passes [isdigit] in
    [find_variables] (line 114) and then makes [int] raise [ValueError]
    (line 136). *)
Example main_superscript_digit :
  main (String "@" (String "178"%char "")) = Raise (ValueError (String "178"%char "")).
Proof. vm_compute. reflexivity. Qed.

(** [line[1:-1]] drops the last character whatever it is: an
    unclosed [(LOOP] declares [LOO], and [@LOOP] becomes variable 16. *)
Example main_unclosed_label :
  main (py_join newline ["(LOOP"; "@LOOP"]) = Ok ("0000000000010000" +:+ newline).
Proof. vm_compute. reflexivity. Qed.

(** A malformed statement is not dropped: [0;JMP=D] is split as
    [dest=comp;jump] with the [;] before the [=], and the run fails on
    the dest lookup. *)
Example main_malformed_line :
  main "0;JMP=D" = Raise (KeyError (Some "0;JMP")).
Proof. vm_compute. reflexivity. Qed.

(** Whitespace between the two slashes still makes a comment. *)
Example main_spaced_comment :
  main "D=M / / note" = Ok ("1111110000010000" +:+ newline).
Proof. vm_compute. reflexivity. Qed.

(** A decimal operand of more than 4300 digits passes [isdigit] in
    [find_variables] and then exceeds [int]'s digit limit (line 136). *)
Example main_digit_limit :
  main ("@" +:+ zeros 4301) = Raise (ValueError (zeros 4301)).
Proof. vm_compute. reflexivity. Qed.

(** ** Witnesses *)

Lemma Assembler_init_length_witness :
  exists st, Assembler_init ["@2"; "D=A"] = Ok st /\
    length (machine_code st) = length (program ["@2"; "D=A"]).
Proof.
  eexists. split; [vm_compute; reflexivity|].
  apply Assembler_init_length. vm_compute. reflexivity.
Defined.

Lemma label_reference_witness :
  exists st, Assembler_init ["@LOOP"; "(LOOP)"; "0;JMP"] = Ok st /\
    machine_code st !! 0 = Some ("0" +:+ Encoder.get_binary_string 1 15).
Proof.
  eexists. split; [vm_compute; reflexivity|].
  apply (label_reference ["@LOOP"; "(LOOP)"; "0;JMP"] _ ["@LOOP"] "(LOOP)" ["0;JMP"] 0);
    [vm_compute; reflexivity | reflexivity | reflexivity | | vm_compute; reflexivity
    | vm_compute; reflexivity].
  intros l Hl. apply list_elem_of_singleton in Hl as ->. discriminate.
Defined.

Lemma predefined_reference_witness :
  exists st, Assembler_init ["@R3"] = Ok st /\
    machine_code st !! 0 = Some "0000000000000011".
Proof.
  eexists. split; [vm_compute; reflexivity|].
  apply (predefined_reference ["@R3"] _ "R3" "3" 0); vm_compute; reflexivity.
Defined.

Lemma variable_reference_witness :
  exists st, Assembler_init ["@x"; "@y"] = Ok st /\
    machine_code st !! 1 = Some "0000000000010001".
Proof.
  eexists. split; [vm_compute; reflexivity|].
  apply (variable_reference ["@x"; "@y"] _ "y" 1 1); vm_compute; reflexivity.
Defined.


End Pipeline.
