(* ===== verification/Spec.v ===== *)
(** * An abstract specification of the assembler

    What the Hack specification asks of an assembler, written without
    the tables, indexes and mutation of [src/hack-assemble.py]:

    - the program is the normalized source with the label declarations
      left out;
    - a label denotes the number of instructions before its declaration,
      a later declaration of the same name overriding an earlier one
      ([label_map] is the list of declarations read as a map);
    - an address operand denotes, in this order, its predefined address,
      its label, [16 + i] when it is the [i]-th symbol of the program
      that is neither predefined nor a label nor a digit string, and
      otherwise [int] of it (which may raise [ValueError]);
    - a compute line is split at its first ["="] and its first [";"]
      ([Parser.c_fields]);
    - every instruction is parsed first and the parsed instructions are
      then encoded, the first error aborting the run.

    [Refinement] proves that [Pipeline.Assembler_init] computes exactly
    [run]. *)

From Stdlib Require Import ZArith.
From stdpp Require Import base list strings gmap.
From S2P Require Import Prelude PyStr Tables State Normalizer Labels Variables Parser Encoder.

Module Spec.

Definition lines (code : list string) : list string := Normalizer.remove_unnecessary_loop code.

Definition program (code : list string) : list string := Labels.instructions (lines code).

(** Each declaration with the number of instructions before it. *)
Fixpoint label_decls (n : Z) (ls : list string) : list (string * Z) :=
  match ls with
  | [] => []
  | l :: ls' =>
      if Labels.is_label l then (Labels.label_name l, n) :: label_decls n ls'
      else label_decls (n + 1) ls'
  end.

(** The declarations as a map; [list_to_map] keeps the first binding of a
    key, so the list is reversed for the last declaration to win. *)
Definition label_map (ls : list string) : gmap string Z := list_to_map (rev (label_decls 0 ls)).

(** A symbol that needs no variable slot. *)
Definition is_known (code : list string) (x : string) : bool :=
  bool_decide (is_Some (predefined_symbols !! x)) ||
  bool_decide (is_Some (label_map (lines code) !! x)).

(** The variables, in order of first occurrence. *)
Definition variables_of (code : list string) : list string :=
  Variables.fresh_symbols (program code) (is_known code).

Fixpoint index_of (x : string) (l : list string) : option nat :=
  match l with
  | [] => None
  | y :: l' => if String.eqb x y then Some 0 else S <$> index_of x l'
  end.

(** The meaning of an address operand. *)
Definition resolve (code : list string) (x : string) : res Z :=
  match predefined_symbols !! x with
  | Some (PStr d) => Ok (dec_acc 0 d)
  | Some (PInt z) => Ok z
  | None =>
      match label_map (lines code) !! x with
      | Some a => Ok a
      | None =>
          match index_of x (variables_of code) with
          | Some i => Ok (16 + Z.of_nat i)%Z
          | None => py_int_str x
          end
      end
  end.

Definition parse (code : list string) (line : string) : res instr :=
  if py_startswith line "@" then
    a <- resolve code (py_slice line 1 None) ;; Ok (A_ins a)
  else Ok (Parser.c_fields line).

(** Parse everything, then encode everything. *)
Definition run (code : list string) : res (list string) :=
  ins <- res_map (parse code) (program code) ;;
  res_map Encoder.assemble_ins ins.

End Spec.
