(* ===== verification/Refinement.v ===== *)
(** * The assembler refines its abstract specification

    [Assembler_init_refines]: for every input, the machine code of a run
    of [Pipeline.Assembler_init] (or the exception that ends it) is
    [Spec.run].  The proof connects each table the code builds to its
    declarative reading in [Spec]: the label table of [find_labels] is
    the map of declarations, the numbering of [find_variables] is the
    index in the first-occurrence list, and the address dereference of
    [build_intermediary] is [Spec.resolve].  The consequences proved
    here: every address the run produces is a natural number (Python's
    unbounded signed [int] never goes negative); a run raises only a
    [ValueError] on an operand [int] rejects (a superscript digit, or
    more than 4300 digits) or a [KeyError] on an unknown mnemonic; and the errors are ordered by stage, not by
    line. *)

From Stdlib Require Import ZArith Lia Ascii.
From stdpp Require Import base list strings gmap sets.
From S2P Require Import Prelude PyStr Tables State Normalizer Labels Variables Parser Encoder Pipeline Spec.

Module Refinement.

(** ** The label table *)

Lemma find_labels_loop_map ls idx n m ix :
  (Labels.find_labels_loop ls idx n m ix).1 = list_to_map (rev (Spec.label_decls n ls)) ∪ m.
Proof.
  revert idx n m ix. induction ls as [|l ls IH]; intros idx n m ix;
    cbn [Labels.find_labels_loop Spec.label_decls].
  - change (list_to_map (rev [])) with (∅ : gmap string Z). by rewrite (left_id_L ∅ union).
  - destruct (Labels.is_label l).
    + rewrite IH. cbn [rev]. rewrite list_to_map_app, insert_union_singleton_l.
      cbn [list_to_map foldr fst snd]. rewrite insert_empty.
      by rewrite (assoc_L union).
    + apply IH.
Qed.

Lemma label_table_spec code : Pipeline.label_table code = Spec.label_map (Spec.lines code).
Proof.
  unfold Pipeline.label_table, Spec.label_map. rewrite find_labels_loop_map.
  apply (right_id_L ∅ union).
Qed.

(** ** The variables *)

Lemma known_spec code x :
  Variables.known predefined_symbols (Pipeline.label_table code) x = Spec.is_known code x.
Proof. unfold Variables.known, py_in, Spec.is_known. by rewrite label_table_spec. Qed.

Lemma fresh_spec code :
  Variables.fresh_symbols (Pipeline.program code)
    (Variables.known predefined_symbols (Pipeline.label_table code)) = Spec.variables_of code.
Proof. apply Variables.fresh_symbols_ext, known_spec. Qed.

(** The first binding of [number_from] is at the first occurrence. *)
Lemma number_from_index n fs x :
  Variables.number_from n fs !! x = (fun i => PInt (n + Z.of_nat i)) <$> Spec.index_of x fs.
Proof.
  revert n. induction fs as [|y fs IH]; intros n; [done|]. cbn [Variables.number_from Spec.index_of].
  destruct (String.eqb_spec x y) as [->|Hne].
  - rewrite lookup_insert_eq. simpl. by rewrite Z.add_0_r.
  - rewrite lookup_insert_ne by congruence. rewrite IH.
    destruct (Spec.index_of x fs); simpl; [|done]. do 2 f_equal. lia.
Qed.

Lemma index_of_None x l : x ∉ l -> Spec.index_of x l = None.
Proof.
  induction l as [|y l IH]; intros Hx; [done|]. cbn [Spec.index_of].
  apply not_elem_of_cons in Hx as [Hne Hx]. destruct (String.eqb_spec x y); [done|].
  by rewrite IH.
Qed.

Lemma known_not_variable code x : Spec.is_known code x = true -> Spec.index_of x (Spec.variables_of code) = None.
Proof. intros Hk. apply index_of_None, Variables.fresh_symbols_known, Hk. Qed.

(** ** Address dereference *)

(** Lines 131-136 with the tables the run has built compute
    [Spec.resolve], on every operand. *)
Lemma resolve_spec code x :
  Parser.resolve_address (Pipeline.symbol_table code) (Pipeline.label_table code) x = Spec.resolve code x.
Proof.
  unfold Parser.resolve_address, Spec.resolve.
  rewrite Pipeline.symbol_table_spec, lookup_union, fresh_spec, number_from_index, label_table_spec.
  destruct (predefined_symbols !! x) as [v|] eqn:Hp.
  - rewrite known_not_variable by (unfold Spec.is_known; rewrite Hp; done). simpl.
    pose proof (Pipeline.predefined_good x v Hp) as Hg.
    destruct v as [d|z]; cbn [Parser.good_value] in Hg; [|done].
    cbn [Parser.py_int]. unfold py_int_str. by rewrite Hg.
  - destruct (Spec.label_map (Spec.lines code) !! x) as [a|] eqn:Hl.
    + rewrite known_not_variable by (unfold Spec.is_known; rewrite Hl, orb_true_r; done).
      done.
    + by destruct (Spec.index_of x (Spec.variables_of code)).
Qed.

(** One line of [build_intermediary] with the run's tables is
    [Spec.parse]. *)
Lemma parse_spec code line :
  Parser.parse_line (Pipeline.symbol_table code) (Pipeline.label_table code) line =
  (i <- Spec.parse code line ;; Ok (Some i)).
Proof.
  unfold Spec.parse. destruct (py_startswith line "@") eqn:Ha.
  - unfold Parser.parse_line. rewrite Ha, resolve_spec. by destruct (Spec.resolve code _).
  - by rewrite Parser.parse_line_C_fields.
Qed.

(** The loop of lines 126-180 is a [res_map] when no line is skipped. *)
Lemma build_intermediary_loop_res_map vars lbls (f : string -> res instr) ls :
  (forall l, Parser.parse_line vars lbls l = (i <- f l ;; Ok (Some i))) ->
  Parser.build_intermediary_loop vars lbls ls = res_map f ls.
Proof.
  intros Hf. induction ls as [|l ls IH]; [done|]. cbn [Parser.build_intermediary_loop res_map].
  rewrite Hf, IH. destruct (f l); cbn [res_bind]; [|done].
  by destruct (res_map f ls).
Qed.

(** ** Addresses are natural numbers *)

Lemma label_decls_nonneg n ls : (0 <= n)%Z -> Forall (fun p => 0 <= p.2)%Z (Spec.label_decls n ls).
Proof.
  revert n. induction ls as [|l ls IH]; intros n Hn; cbn [Spec.label_decls]; [constructor|].
  destruct (Labels.is_label l); [constructor; [done|by apply IH]|apply IH; lia].
Qed.

Lemma label_map_nonneg ls x a : Spec.label_map ls !! x = Some a -> (0 <= a)%Z.
Proof.
  intros Hx%elem_of_list_to_map_2.
  pose proof (Forall_rev (label_decls_nonneg 0 ls ltac:(lia))) as Hall.
  rewrite Forall_forall in Hall. exact (Hall (x, a) Hx).
Qed.

(** The values of [predefined_symbols] are all strings. *)
Lemma predefined_str x v : predefined_symbols !! x = Some v -> exists d, v = PStr d.
Proof.
  intros H%elem_of_list_to_map_2.
  assert (Hall : forallb (fun kv => match kv.2 with PStr _ => true | PInt _ => false end)
                   predefined_entries = true) by reflexivity.
  rewrite forallb_forall in Hall. specialize (Hall (x, v)). apply list_elem_of_In in H.
  destruct v as [d|z]; [by exists d|]. by specialize (Hall H).
Qed.

Lemma resolve_nonneg code x a : Spec.resolve code x = Ok a -> (0 <= a)%Z.
Proof.
  unfold Spec.resolve.
  destruct (predefined_symbols !! x) as [v|] eqn:Hp.
  - destruct (predefined_str x v Hp) as [d ->]. intros [= <-].
    pose proof (Pipeline.predefined_good x (PStr d) Hp) as Hg. cbn [Parser.good_value] in Hg.
    apply (py_int_str_nonneg d). unfold py_int_str. by rewrite Hg.
  - destruct (Spec.label_map (Spec.lines code) !! x) as [b|] eqn:Hl.
    { intros [= <-]. exact (label_map_nonneg _ x b Hl). }
    destruct (Spec.index_of x (Spec.variables_of code)); [intros [= <-]; lia|].
    apply py_int_str_nonneg.
Qed.

(** ** The refinement *)

(** [__init__] with each stage replaced by its specification: parse
    the program with [Spec.parse], then encode the instructions. *)
Lemma Assembler_init_spec code :
  Pipeline.Assembler_init code =
  (ins <- res_map (Spec.parse code) (Spec.program code) ;;
   mc <- res_map Encoder.assemble_ins ins ;;
   Ok (set_machine_code mc
         (set_intermediary_code ins (Variables.find_variables (Pipeline.after_labels code))))).
Proof.
  rewrite Pipeline.Assembler_init_eq. unfold Parser.build_intermediary.
  change (variables (Variables.find_variables (Pipeline.after_labels code)))
    with (Pipeline.symbol_table code).
  change (labels (Variables.find_variables (Pipeline.after_labels code)))
    with (Pipeline.label_table code).
  change (assembly_code (Variables.find_variables (Pipeline.after_labels code)))
    with (Spec.program code).
  rewrite (build_intermediary_loop_res_map _ _ (Spec.parse code)) by apply parse_spec.
  by destruct (res_map (Spec.parse code) (Spec.program code)).
Qed.

(** The machine code of a run, or its exception, is [Spec.run]'s. *)
Lemma Assembler_init_run code :
  (st <- Pipeline.Assembler_init code ;; Ok (machine_code st)) = Spec.run code.
Proof.
  rewrite Assembler_init_spec. unfold Spec.run.
  destruct (res_map (Spec.parse code) (Spec.program code)) as [ins|e]; cbn [res_bind]; [|done].
  by destruct (res_map Encoder.assemble_ins ins).
Qed.

(** C1: for every input, a run of [Assembler.__init__] ends with the
    machine code [Spec.run] computes, or raises the exception
    [Spec.run] raises: the tables, the index bookkeeping and the
    deletions of the code implement the declarative reading of labels,
    variables and compute lines, with parsing of the whole program
    before any encoding. *)
Theorem Assembler_init_refines code :
  (st <- Pipeline.Assembler_init code ;; Ok (machine_code st)) = Spec.run code.
Proof. exact (Assembler_init_run code). Qed.

Lemma parse_nonneg code line a : Spec.parse code line = Ok (A_ins a) -> (0 <= a)%Z.
Proof.
  unfold Spec.parse. destruct (py_startswith line "@").
  2:{ intros [= H]. revert H. unfold Parser.c_fields. repeat case_match; discriminate. }
  destruct (Spec.resolve code _) as [b|] eqn:Hr; cbn [res_bind]; [|discriminate].
  intros [= <-]. by apply (resolve_nonneg code (py_slice line 1 None)).
Qed.

(** C13: every address in the intermediate code of a successful run is
    a natural number: a predefined value, a label position, a variable
    slot or a decimal literal, never negative, so the sign branch of
    [format] (line 213) is never taken. *)
Theorem Assembler_init_nonneg code st :
  Pipeline.Assembler_init code = Ok st ->
  Forall (fun i => match i with A_ins a => (0 <= a)%Z | C_ins _ _ _ => True end)
    (intermediary_code st).
Proof.
  rewrite Assembler_init_spec.
  destruct (res_map (Spec.parse code) (Spec.program code)) as [ins|e] eqn:Hp;
    cbn [res_bind]; [|discriminate].
  destruct (res_map Encoder.assemble_ins ins); cbn [res_bind]; [|discriminate].
  intros [= <-]. cbn [intermediary_code set_machine_code set_intermediary_code].
  apply res_map_Ok in Hp. clear -Hp. induction Hp as [|line i lines ins Hi _ IH]; constructor; [|done].
  destruct i; [by apply (parse_nonneg code line)|done].
Qed.

(** The run parses every line before it encodes any: a [ValueError]
    on the second line ([int] of a superscript two) is raised although
    the first line already has an unknown comp [X], because
    [build_intermediary] finishes before [assemble] starts. *)
Example main_error_order :
  Pipeline.main (py_join Pipeline.newline ["D=X"; String "@" (String "178"%char "")]) =
  Raise (ValueError (String "178"%char "")).
Proof. vm_compute. reflexivity. Qed.

(** ** The exceptions of a run *)

Lemma index_of_Some x l : x ∈ l -> is_Some (Spec.index_of x l).
Proof.
  induction l as [|y l IH]; intros Hx; [set_solver|]. cbn [Spec.index_of].
  destruct (String.eqb_spec x y); [by eexists|].
  apply elem_of_cons in Hx as [->|Hx]; [done|]. destruct (IH Hx) as [i ->]. by eexists.
Qed.

(** An operand of the program on which [Spec.resolve] raises is a digit
    string in the sense of [isdigit] that [int] rejects: not a decimal
    literal, or longer than the digit limit. *)
Lemma resolve_raise code line e :
  line ∈ Spec.program code -> py_startswith line "@" = true ->
  Spec.resolve code (py_slice line 1 None) = Raise e ->
  py_isdigit (py_slice line 1 None) = true /\ (is_decimal (py_slice line 1 None) = false \/
     (int_max_str_digits < String.length (py_slice line 1 None))%nat) /\
  e = ValueError (py_slice line 1 None).
Proof.
  intros Hin Ha. unfold Spec.resolve.
  destruct (predefined_symbols !! _) as [[d|z]|] eqn:Hp; [discriminate|discriminate|].
  destruct (Spec.label_map _ !! _) eqn:Hl; [discriminate|].
  destruct (Spec.index_of _ _) eqn:Hi; [discriminate|].
  unfold py_int_str. destruct (py_int_accepts _) eqn:Hd; [discriminate|]. intros [= <-].
  split; [|split; [by apply py_int_accepts_false|done]]. destruct (py_isdigit _) eqn:Hdig; [done|]. exfalso.
  assert (Hf : Variables.a_symbol line ∈ Spec.variables_of code).
  { apply Variables.fresh_symbols_complete; [done| |].
    - unfold Variables.symbol_line, Variables.is_ainstr, Variables.a_symbol. by rewrite Ha, Hdig.
    - unfold Spec.is_known, Variables.a_symbol. by rewrite Hp, Hl. }
  destruct (index_of_Some _ _ Hf) as [i Hi']. unfold Variables.a_symbol in Hi'. congruence.
Qed.

(** An instruction of the parse of the program comes from a line of it. *)
Lemma parse_source code ins i :
  res_map (Spec.parse code) (Spec.program code) = Ok ins -> i ∈ ins ->
  exists line, line ∈ Spec.program code /\ Spec.parse code line = Ok i.
Proof.
  intros Hp%res_map_Ok Hi. apply list_elem_of_lookup in Hi as [k Hk].
  destruct (Forall2_lookup_r _ _ _ _ _ Hp Hk) as (line & Hl & Hpl).
  exists line. split; [by eapply list_elem_of_lookup_2|done].
Qed.

Lemma parse_C_line code line d c j :
  Spec.parse code line = Ok (C_ins d c j) ->
  py_startswith line "@" = false /\ Parser.c_fields line = C_ins d c j.
Proof.
  unfold Spec.parse. destruct (py_startswith line "@"); [|by intros [= ->]].
  by destruct (Spec.resolve code _).
Qed.

(** C14: a run raises only two kinds of exception.  Either a
    [ValueError] on an address operand [s] for which [s.isdigit()]
    holds but [int(s)] fails, because [s] holds a superscript digit or
    has more than 4300 digits (every other unknown operand became a
    variable), or a [KeyError] on a compute line, naming
    the first of its dest, comp and jump (in that order) that the tables
    do not know. *)
Theorem Assembler_init_raise code e :
  Pipeline.Assembler_init code = Raise e ->
  (exists line, line ∈ Spec.program code /\ py_startswith line "@" = true /\
     py_isdigit (py_slice line 1 None) = true /\
     (is_decimal (py_slice line 1 None) = false \/
      (int_max_str_digits < String.length (py_slice line 1 None))%nat) /\
     e = ValueError (py_slice line 1 None)) \/
  (exists line d c j, line ∈ Spec.program code /\ py_startswith line "@" = false /\
     Parser.c_fields line = C_ins d c j /\
     (((d ∉ dest_entries.*1) /\ e = KeyError d) \/
      (d ∈ dest_entries.*1 /\ (Some c ∉ comp_entries.*1) /\ e = KeyError (Some c)) \/
      (d ∈ dest_entries.*1 /\ Some c ∈ comp_entries.*1 /\ (j ∉ jump_entries.*1) /\
       e = KeyError j))).
Proof.
  rewrite Assembler_init_spec.
  destruct (res_map (Spec.parse code) (Spec.program code)) as [ins|e'] eqn:Hp; cbn [res_bind].
  - destruct (res_map Encoder.assemble_ins ins) eqn:Hm; cbn [res_bind]; [discriminate|].
    intros [= <-]. apply res_map_Raise in Hm as ([a|d c j] & Hi & Hr); [discriminate|].
    destruct (parse_source _ _ _ Hp Hi) as (line & Hin & Hl).
    destruct (parse_C_line _ _ _ _ _ Hl) as [Ha Hc].
    right. exists line, d, c, j. do 3 (split; [done|]). by apply Encoder.assemble_C_raise.
  - intros [= <-]. left. apply res_map_Raise in Hp as (line & Hin & Hr).
    unfold Spec.parse in Hr. destruct (py_startswith line "@") eqn:Ha; [|discriminate].
    destruct (Spec.resolve code _) eqn:Hres; cbn [res_bind] in Hr; [discriminate|].
    injection Hr as <-. exists line. do 2 (split; [done|]). exact (resolve_raise code line _ Hin Ha Hres).
Qed.

(** ** Witnesses *)

Lemma Assembler_init_nonneg_witness :
  exists st, Pipeline.Assembler_init ["@x"; "@7"; "(L)"; "@L"; "D=M"] = Ok st /\
    Forall (fun i => match i with A_ins a => (0 <= a)%Z | C_ins _ _ _ => True end)
      (intermediary_code st).
Proof.
  eexists. split; [vm_compute; reflexivity|].
  apply (Assembler_init_nonneg ["@x"; "@7"; "(L)"; "@L"; "D=M"]). vm_compute. reflexivity.
Defined.

Lemma Assembler_init_raise_witness :
  Pipeline.Assembler_init ["@i"; "D=X"] = Raise (KeyError (Some "X")) /\
  ((exists line, line ∈ Spec.program ["@i"; "D=X"] /\ py_startswith line "@" = true /\
     py_isdigit (py_slice line 1 None) = true /\
     (is_decimal (py_slice line 1 None) = false \/
      (int_max_str_digits < String.length (py_slice line 1 None))%nat) /\
     KeyError (Some "X") = ValueError (py_slice line 1 None)) \/
  (exists line d c j, line ∈ Spec.program ["@i"; "D=X"] /\ py_startswith line "@" = false /\
     Parser.c_fields line = C_ins d c j /\
     (((d ∉ dest_entries.*1) /\ KeyError (Some "X") = KeyError d) \/
      (d ∈ dest_entries.*1 /\ (Some c ∉ comp_entries.*1) /\ KeyError (Some "X") = KeyError (Some c)) \/
      (d ∈ dest_entries.*1 /\ Some c ∈ comp_entries.*1 /\ (j ∉ jump_entries.*1) /\
       KeyError (Some "X") = KeyError j)))).
Proof.
  assert (H : Pipeline.Assembler_init ["@i"; "D=X"] = Raise (KeyError (Some "X")))
    by (vm_compute; reflexivity).
  split; [exact H|]. exact (Assembler_init_raise _ _ H).
Defined.

End Refinement.
