(* ===== verification/Process.v ===== *)
(** * The script as a process: lines 223-224

    [asm = Assembler(sys.stdin.readlines())] followed by
    [print(asm.get_machine_code())] is the whole module-level code.  What
    an observer of the process sees is its standard output, the
    exception reported on standard error when one escapes (the
    interpreter prints its traceback there) and the exit status: 0 after
    the last statement, 1 after an uncaught exception.  Nothing is
    written to standard output before [print], so a run that raises
    prints nothing.  [outcome] records these three observations and
    [run_script] computes them from the text on standard input.

    Theorem: the output is all or nothing, as the spec's error-handling
    section requires: either every instruction of the program is encoded
    (the words [Spec.run] computes, newline-joined, and a final newline)
    and the status is 0, or standard output is empty, the exception is
    [Spec.run]'s and the status is 1. *)

From Stdlib Require Import ZArith.
From stdpp Require Import base list strings.
From S2P Require Import Prelude PyStr State Pipeline Spec Refinement.

Module Process.

Record outcome : Type := mkOutcome {
  stdout : string;
  uncaught : option py_exc;
  exit_status : Z
}.

(** Lines 223-224 run by the interpreter on the text of standard input. *)
Definition run_script (input : string) : outcome :=
  match Pipeline.main input with
  | Ok out => {| stdout := out; uncaught := None; exit_status := 0 |}
  | Raise e => {| stdout := ""; uncaught := Some e; exit_status := 1 |}
  end.

(** C2: the output is all or nothing.  When the specification of the
    run succeeds with the words [ws], the process prints them joined by
    newlines with a final newline and exits with 0; when it raises [e],
    the process prints nothing, reports [e] and exits with 1. *)
Theorem run_script_all_or_nothing input :
  match Spec.run (Pipeline.readlines input) with
  | Ok ws => run_script input =
             {| stdout := py_join Pipeline.newline ws +:+ Pipeline.newline;
                uncaught := None; exit_status := 0 |}
  | Raise e => run_script input = {| stdout := ""; uncaught := Some e; exit_status := 1 |}
  end.
Proof.
  unfold run_script, Pipeline.main.
  rewrite <- Refinement.Assembler_init_run.
  destruct (Pipeline.Assembler_init (Pipeline.readlines input)) as [st|e]; reflexivity.
Qed.

(** An example: a program with an unknown comp prints nothing and exits
    with status 1. *)
Example run_script_unknown_comp :
  run_script (py_join Pipeline.newline ["@2"; "D=X"]) =
  {| stdout := ""; uncaught := Some (KeyError (Some "X")); exit_status := 1 |}.
Proof. vm_compute. reflexivity. Qed.

End Process.
